(** * ldpoisson_ex: parameter sweeps around the 1D Poisson simulator

    A shallow embedding of [src/ldpoisson_ex] (models.py, solver.py, data.py, cli.py).
    Python floats and numpy float64 values are IEEE binary64 numbers, modelled
    by the kernel's primitive floats; Python dicts are association lists that
    keep insertion order; exceptions are the [Err] case of [result]. *)

From Stdlib Require Import List String Ascii ZArith Lia.
From Stdlib Require Import PrimFloat SpecFloat FloatOps FloatAxioms Uint63.
Import ListNotations.
Set Warnings "-inexact-float".

(** ** Python runtime *)

Inductive PyError :=
| ValueError
| TypeError
| KeyError
| IndexError
| AttributeError
| ZeroDivisionError
| OverflowError
| FileNotFoundError
| FileExistsError
| TemplateNotFound.

Inductive result (A : Type) : Type :=
| Ok (a : A)
| Err (e : PyError).
Arguments Ok {A} a.
Arguments Err {A} e.

Definition bind {A B} (r : result A) (k : A -> result B) : result B :=
  match r with
  | Ok a => k a
  | Err e => Err e
  end.

Notation "x <- r ;; k" := (bind r (fun x => k))
  (at level 61, r at next level, right associativity).

(** A Python [dict] with [str] keys: insertion-ordered association list. *)
Definition dict (A : Type) := list (string * A).

Fixpoint dict_get {A} (d : dict A) (k : string) : option A :=
  match d with
  | [] => None
  | (k', v) :: d' => if String.eqb k k' then Some v else dict_get d' k
  end.

(** [d[k] = v]: an existing key keeps its position, a new key goes last. *)
Fixpoint dict_set {A} (d : dict A) (k : string) (v : A) : dict A :=
  match d with
  | [] => [(k, v)]
  | (k', v') :: d' =>
      if String.eqb k k' then (k', v) :: d' else (k', v') :: dict_set d' k v
  end.

(** [dict(pairs)], e.g. [dict(zip(names, values))]. *)
Definition dict_of_pairs {A} (ps : list (string * A)) : dict A :=
  fold_left (fun d kv => dict_set d (fst kv) (snd kv)) ps [].

(** [float(i)] for a non-negative machine integer. *)
Definition float_of_nat (i : nat) : float :=
  PrimFloat.of_uint63 (Uint63.of_Z (Z.of_nat i)).

(** ** models.py *)

Record Array := {
  start : float;
  end_ : float;
  step : float
}.

(** [value: list[float] | Array] *)
Inductive VarValue :=
| VList (l : list float)
| VArray (a : Array).

Record Variable_ := {  (* models.Variable *)
  var_name : string;
  var_value : VarValue;
  var_format : option string   (* format: str | None = None *)
}.

Record Constant := {
  const_name : string;
  const_value : float
}.

(** ** numpy.arange on Python floats

    numpy's [_calc_length]: [(stop - start) / step] is a Python float
    division (ZeroDivisionError for a zero step); a zero quotient of a
    non-zero difference gives the length 0 or 1 by its sign, any other
    quotient is rounded up by [_arange_safe_ceil_to_intp]. The buffer holds
    [start], then [start + step], and the float64 [fill] writes
    [start + i * delta] with [delta = buffer[1] - buffer[0]] for [i >= 2]. *)

(** [npy_ceil] of a double, as an integer; [None] for NaN and infinities. *)
Definition spec_ceil (x : spec_float) : option Z :=
  match x with
  | S754_zero _ => Some 0%Z
  | S754_infinity _ | S754_nan => None
  | S754_finite s m e =>
      if (0 <=? e)%Z then
        Some (if s then - (Z.pos m * 2 ^ e) else Z.pos m * 2 ^ e)%Z
      else
        let d := (2 ^ (- e))%Z in
        Some (if s then - (Z.pos m / d) else (Z.pos m + d - 1) / d)%Z
  end.

Definition npy_max_intp : Z := (2 ^ 63 - 1)%Z.

(** [(npy_intp)ivalue] for an integral double [ivalue] in
    [[(double)NPY_MIN_INTP, (double)NPY_MAX_INTP]] = [[-2^63, 2^63]]: on
    x86-64 the conversion ([cvttsd2si]) turns the out-of-range [2^63] into
    [NPY_MIN_INTP]. *)
Definition npy_intp_cast (c : Z) : Z :=
  if (c =? 2 ^ 63)%Z then (- 2 ^ 63)%Z else c.

Definition arange_safe_ceil_to_intp (value : float) : result Z :=
  if PrimFloat.is_nan value then Err ValueError
  else match spec_ceil (Prim2SF value) with
       | None => Err OverflowError
       | Some c =>
           if andb (- 2 ^ 63 <=? c)%Z (c <=? 2 ^ 63)%Z then Ok (npy_intp_cast c)
           else Err OverflowError
       end.

Definition calc_length (start stop step : float) : result Z :=
  let next := (stop - start)%float in
  if (step =? 0)%float then Err ZeroDivisionError
  else
    let val := (next / step)%float in
    if andb (val =? 0)%float (negb (next =? 0)%float)
    then Ok (if PrimFloat.get_sign val then 0%Z else 1%Z)
    else arange_safe_ceil_to_intp val.

Definition arange_elem (start next : float) (i : nat) : float :=
  match i with
  | 0 => start
  | 1 => next
  | _ => (start + float_of_nat i * (next - start))%float
  end.

(** [PyArray_ArangeObj]: an OverflowError of the length becomes
    ValueError ("Maximum allowed size exceeded"), a length [<= 0] gives an
    empty array, and [PyArray_NewFromDescr] refuses a float64 array of more
    than [NPY_MAX_INTP] bytes with ValueError ("array is too big"). Whether
    the memory of a smaller array can be allocated (MemoryError) depends on
    the machine and is not modelled. *)
Definition arange (start stop step : float) : result (list float) :=
  match calc_length start stop step with
  | Err OverflowError => Err ValueError
  | Err e => Err e
  | Ok len =>
      if (len <=? 0)%Z then Ok []
      else if (npy_max_intp <? 8 * len)%Z then Err ValueError
      else
        let next := (start + step)%float in
        Ok (map (arange_elem start next) (seq 0 (Z.to_nat len)))
  end.

(** ** solver.py: ParamsManager *)

Record ParamsManager := {
  pm_constants : dict float;
  pm_variables : dict (list float);
  pm_variable_formats : dict (option string)
}.

Fixpoint init_variables (d : dict (list float)) (vs : list Variable_)
  : result (dict (list float)) :=
  match vs with
  | [] => Ok d
  | var :: vs' =>
      match var_value var with
      | VList l => init_variables (dict_set d (var_name var) l) vs'
      | VArray a =>
          l <- arange (start a) (end_ a) (step a) ;;
          init_variables (dict_set d (var_name var) l) vs'
      end
  end.

(** [ParamsManager.__init__] *)
Definition init (constants : list Constant) (variables : list Variable_)
  : result ParamsManager :=
  let cs := fold_left (fun d c => dict_set d (const_name c) (const_value c))
                      constants [] in
  vs <- init_variables [] variables ;;
  let fmts := dict_of_pairs (map (fun v => (var_name v, var_format v)) variables) in
  Ok {| pm_constants := cs; pm_variables := vs; pm_variable_formats := fmts |}.

(** [itertools.product] over [pools], as its documentation writes it:
    [result = [[]]; for pool in pools: result = [x+[y] for x in result for y in pool]]. *)
Definition itertools_product {A} (pools : list (list A)) : list (list A) :=
  fold_left (fun res pool => flat_map (fun x => map (fun y => x ++ [y]) pool) res)
            pools [[]].

(** [ParamsManager.generate_variables] *)
Definition generate_variables (m : ParamsManager) : list (dict float) :=
  match pm_variables m with
  | [] => [pm_constants m]
  | vars =>
      let var_names := map fst vars in
      let var_values := map snd vars in   (* [self._variables[name] for name in var_names] *)
      map (fun combination => dict_of_pairs (combine var_names combination))
          (itertools_product var_values)
  end.

(** [ParamsManager.shape_variables] *)
Definition shape_variables (m : ParamsManager) : list nat :=
  map (fun kv => List.length (snd kv)) (pm_variables m).

(** [np.prod] of a shape tuple ([1] for the empty tuple). *)
Definition prod (shape : list nat) : nat := fold_left Nat.mul shape 1.

(** ** numpy: C-order arrays and [reshape] *)

Record ndarray (A : Type) := mk_ndarray {
  nd_shape : list nat;
  nd_data : list A
}.
Arguments mk_ndarray {A}.
Arguments nd_shape {A}.
Arguments nd_data {A}.

(** [np.array(data).reshape(shape)]: a ValueError unless the sizes agree. *)
Definition reshape {A} (data : list A) (shape : list nat) : result (ndarray A) :=
  if Nat.eqb (List.length data) (prod shape) then Ok (mk_ndarray shape data)
  else Err ValueError.

(** Offset of a multi-index in C (row-major) order: the sum of [i_k * stride_k],
    where [stride_k] is the product of the later dimensions. *)
Fixpoint c_offset (shape idx : list nat) : nat :=
  match shape, idx with
  | _ :: shape', i :: idx' => i * prod shape' + c_offset shape' idx'
  | _, _ => 0
  end.

Fixpoint in_bounds (shape idx : list nat) : bool :=
  match shape, idx with
  | [], [] => true
  | n :: shape', i :: idx' => andb (Nat.ltb i n) (in_bounds shape' idx')
  | _, _ => false
  end.

(** [a[i0, i1, ...]] with one index per dimension. *)
Definition nd_get {A} (a : ndarray A) (idx : list nat) : result A :=
  if in_bounds (nd_shape a) idx then
    match nth_error (nd_data a) (c_offset (nd_shape a) idx) with
    | Some x => Ok x
    | None => Err IndexError
    end
  else Err IndexError.

(** The combination whose k-th entry is the [i_k]-th value of the k-th pool. *)
Definition pick (pools : list (list float)) (idx : list nat) : list float :=
  map (fun p => nth (snd p) (fst p) 0%float) (combine pools idx).

(** [itertools.product], recursively: the first pool varies slowest. *)
Fixpoint product_rec {A} (pools : list (list A)) : list (list A) :=
  match pools with
  | [] => [[]]
  | p :: ps => flat_map (fun y => map (cons y) (product_rec ps)) p
  end.

(** Value of the last constant named [k], if any. *)
Definition last_const_value (k : string) (cs : list Constant) : option float :=
  fold_left (fun acc c => if String.eqb k (const_name c) then Some (const_value c) else acc)
            cs None.

(** Value list of the last variable named [k], for explicit-list variables. *)
Definition var_list (v : Variable_) : list float :=
  match var_value v with
  | VList l => l
  | VArray _ => []
  end.

Definition last_var_list (k : string) (vs : list Variable_) : option (list float) :=
  fold_left (fun acc v => if String.eqb k (var_name v) then Some (var_list v) else acc)
            vs None.

Definition is_list_variable (v : Variable_) : bool :=
  match var_value v with
  | VList _ => true
  | VArray _ => false
  end.

(** ** str.format with one positional argument

    [fmt.format(v)]: literal text is copied, ["{{"] and ["}}"] stand for
    single braces, a lone ["}"] or an unclosed ["{"] is a ValueError, and the
    text of each replacement field (up to its matching ["}"]) is rendered by
    [format_field], which receives the automatic field number; the
    field-level semantics (field name, conversion, format spec) are the
    runtime's and are a parameter of the model. *)

Section StrFormat.
Open Scope string_scope.

Variable format_field : string -> nat -> float -> result string.

Fixpoint str_format_go (s : string) (field : option (nat * string)) (auto : nat)
  (v : float) (out : string) : result string :=
  match field, s with
  | None, EmptyString => Ok out
  | None, String c r =>
      if Ascii.eqb c "{"%char then
        match r with
        | String c' r' =>
            if Ascii.eqb c' "{"%char then str_format_go r' None auto v (out ++ "{")
            else str_format_go r (Some (0, EmptyString)) auto v out
        | EmptyString => Err ValueError
        end
      else if Ascii.eqb c "}"%char then
        match r with
        | String c' r' =>
            if Ascii.eqb c' "}"%char then str_format_go r' None auto v (out ++ "}")
            else Err ValueError
        | EmptyString => Err ValueError
        end
      else str_format_go r None auto v (out ++ String c EmptyString)
  | Some _, EmptyString => Err ValueError
  | Some (depth, f), String c r =>
      if Ascii.eqb c "}"%char then
        match depth with
        | 0 => s' <- format_field f auto v ;; str_format_go r None (S auto) v (out ++ s')
        | S d => str_format_go r (Some (d, f ++ String c EmptyString)) auto v out
        end
      else if Ascii.eqb c "{"%char then
        str_format_go r (Some (S depth, f ++ String c EmptyString)) auto v out
      else str_format_go r (Some (depth, f ++ String c EmptyString)) auto v out
  end.

Definition str_format (fmt : string) (v : float) : result string :=
  str_format_go fmt None 0 v EmptyString.

(** [[f(x) for x in xs]] where [f] may raise: the first exception wins. *)
Fixpoint map_result {A B} (f : A -> result B) (xs : list A) : result (list B) :=
  match xs with
  | [] => Ok []
  | x :: xs' => y <- f x ;; ys <- map_result f xs' ;; Ok (y :: ys)
  end.

(** [lDPoissonExSolver._get_dir_name]: [variable_formats[k]] raises KeyError
    for a key that is not a variable, and [None.format] is an AttributeError. *)
Definition get_dir_name (m : ParamsManager) (variables : dict float) : result string :=
  results <- map_result
    (fun kv =>
       match dict_get (pm_variable_formats m) (fst kv) with
       | None => Err KeyError
       | Some None => Err AttributeError
       | Some (Some format_str) =>
           s <- str_format format_str (snd kv) ;;
           Ok (fst kv ++ "(" ++ s ++ ")")
       end) variables ;;
  Ok (String.concat "_" results).

End StrFormat.

(** ** A concrete [format_field] for the examples

    Fixed-point replacement fields ["{:.Nf}"] and ["{0:.Nf}"], rendered as
    Python does: the exact binary value rounded half-to-even to [N] decimals.
    Any other field is refused with a ValueError. *)

Fixpoint decimal_digits (fuel : nat) (n : Z) (acc : string) : string :=
  match fuel with
  | 0 => acc
  | S fuel' =>
      let acc' := String (ascii_of_nat (48 + Z.to_nat (n mod 10))) acc in
      if (n <? 10)%Z then acc' else decimal_digits fuel' (n / 10) acc'
  end.

Definition z_digits (n : Z) : string :=
  decimal_digits (S (Z.to_nat (Z.log2 n))) n EmptyString.

Definition pad_zeros (width : nat) (s : string) : string :=
  (String.concat "" (repeat "0"%string (width - String.length s)) ++ s)%string.

(** [round(|x| * 10^N)], half to even, on the exact value of [x]. *)
Definition scaled_round (prec : nat) (m : positive) (e : Z) : Z :=
  let p10 := (10 ^ Z.of_nat prec)%Z in
  if (0 <=? e)%Z then (Z.pos m * 2 ^ e * p10)%Z
  else
    let num := (Z.pos m * p10)%Z in
    let den := (2 ^ (- e))%Z in
    let q := (num / den)%Z in
    let r := (num mod den)%Z in
    if ((den <? 2 * r) || ((2 * r =? den) && Z.odd q))%Z%bool then (q + 1)%Z else q.

Definition render_fixed (prec : nat) (neg : bool) (q : Z) : string :=
  let ds := pad_zeros (S prec) (z_digits q) in
  let n := String.length ds in
  ((if neg then "-" else "") ++ substring 0 (n - prec) ds
   ++ (match prec with 0 => "" | _ => "." ++ substring (n - prec) prec ds end))%string.

Definition format_fixed (prec : nat) (x : float) : string :=
  match Prim2SF x with
  | S754_zero s => render_fixed prec s 0
  | S754_finite s m e => render_fixed prec s (scaled_round prec m e)
  | S754_infinity s => if s then "-inf" else "inf"
  | S754_nan => "nan"
  end.

(** The [N] of a spec [".Nf"]. *)
Fixpoint precision_digits (s : string) (acc : nat) : option nat :=
  match s with
  | String c EmptyString => if Ascii.eqb c "f"%char then Some acc else None
  | String c r =>
      let d := nat_of_ascii c - 48 in
      if (Nat.leb 48 (nat_of_ascii c) && Nat.leb (nat_of_ascii c) 57)%bool
      then precision_digits r (10 * acc + d) else None
  | EmptyString => None
  end.

Definition fixed_format_field (field : string) (auto : nat) (v : float) : result string :=
  let spec :=
    match field with
    | String ":" (String "." r) => if Nat.eqb auto 0 then Some r else None
    | String "0" (String ":" (String "." r)) => Some r
    | _ => None
    end in
  match spec with
  | Some r =>
      match precision_digits r 0 with
      | Some prec => Ok (format_fixed prec v)
      | None => Err ValueError
      end
  | None => Err ValueError
  end.

(** Format of the last variable named [k]. *)
Definition last_var_format (k : string) (vs : list Variable_) : option (option string) :=
  fold_left (fun acc v => if String.eqb k (var_name v) then Some (var_format v) else acc)
            vs None.

Definition declared_format (k : string) (vs : list Variable_) : string :=
  match last_var_format k vs with
  | Some (Some f) => f
  | _ => EmptyString
  end.

(** One identifier segment [name(format_str.format(value))]. *)
Definition segment (format_field : string -> nat -> float -> result string)
  (format_str k : string) (v : float) : result string :=
  s <- str_format format_field format_str v ;;
  Ok (k ++ "(" ++ s ++ ")")%string.

Definition has_no_braces (s : string) : bool :=
  forallb (fun c => negb (Ascii.eqb c "{"%char || Ascii.eqb c "}"%char))
          (list_ascii_of_string s).

(** ** data.py: OutputData

    The report is read by [csv.DictReader(f, fieldnames=_FIELD_NAMES,
    delimiter="\t")]. Its input here is the list of rows [csv.reader] splits
    the file into; [DictReader] skips the empty rows and maps the k-th of the
    nine field names to the k-th cell, or to [None] (its [restval]) when the
    row is shorter. Python's [float] on a string is the parameter [py_float]. *)

Definition row := list string.

(** [row[_FIELD_NAMES[k]]] *)
Definition field (r : row) (k : nat) : option string := nth_error r k.
Arguments field : simpl never.

Definition nonblank (r : row) : bool :=
  match r with
  | [] => false
  | _ :: _ => true
  end.

Record OutputData := {
  z : list float;
  energy_conduction : list float;
  energy_valence : list float;
  electric_field : list float;
  energy_fermi : list float;
  density_electron : list float;
  density_hole : list float;
  energy_ground_state : option float;
  position_ground_state : option float
}.

Definition empty_output : OutputData := {|
  z := []; energy_conduction := []; energy_valence := []; electric_field := [];
  energy_fermi := []; density_electron := []; density_hole := [];
  energy_ground_state := None; position_ground_state := None
|}.

Section OutputParser.

Variable py_float : string -> result float.

(** [float(x)] on a cell: [float(None)] is a TypeError. *)
Definition to_float (x : option string) : result float :=
  match x with
  | None => Err TypeError
  | Some s => py_float s
  end.

(** The loop body of [OutputData.__init__] for a row with [i != 0]. *)
Definition process_row (acc : OutputData) (r : row) : result OutputData :=
  y <- to_float (field r 0) ;;
  ec <- to_float (field r 1) ;;
  ev <- to_float (field r 2) ;;
  ef <- to_float (field r 3) ;;
  fe <- to_float (field r 4) ;;
  ne <- to_float (field r 5) ;;
  nh <- to_float (field r 6) ;;
  let acc' := {|
    z := z acc ++ [(y / 10)%float];
    energy_conduction := energy_conduction acc ++ [ec];
    energy_valence := energy_valence acc ++ [ev];
    electric_field := electric_field acc ++ [ef];
    energy_fermi := energy_fermi acc ++ [fe];
    density_electron := density_electron acc ++ [ne];
    density_hole := density_hole acc ++ [nh];
    energy_ground_state := energy_ground_state acc;
    position_ground_state := position_ground_state acc
  |} in
  match field r 8, energy_ground_state acc with
  | Some _, None =>
      e <- to_float (field r 8) ;;
      y' <- to_float (field r 0) ;;
      Ok {| z := z acc'; energy_conduction := energy_conduction acc';
            energy_valence := energy_valence acc';
            electric_field := electric_field acc';
            energy_fermi := energy_fermi acc';
            density_electron := density_electron acc';
            density_hole := density_hole acc';
            energy_ground_state := Some e;
            position_ground_state := Some (y' / 10)%float |}
  | _, _ => Ok acc'
  end.

(** [for i, row in enumerate(reader): if i == 0: continue; ...] *)
Fixpoint parse_rows (i : nat) (rows : list row) (acc : OutputData) : result OutputData :=
  match rows with
  | [] => Ok acc
  | r :: rows' =>
      if Nat.eqb i 0 then parse_rows (S i) rows' acc
      else acc' <- process_row acc r ;; parse_rows (S i) rows' acc'
  end.

(** [OutputData(output_file)] *)
Definition output_data (rows : list row) : result OutputData :=
  parse_rows 0 (filter nonblank rows) empty_output.

End OutputParser.

(** The data rows: the rows [DictReader] yields, after the skipped row 0. *)
Definition data_rows (rows : list row) : list row := tl (filter nonblank rows).

(** The eigen-energy (9th) cell is present and not empty. *)
Definition nonempty9 (r : row) : bool :=
  match field r 8 with
  | Some s => negb (String.eqb s EmptyString)
  | None => false
  end.

(** A data row with the seven numeric cells, and the eigen-energy cell
    either absent or numeric. *)
Definition well_formed_row (py_float : string -> result float) (r : row) : Prop :=
  (forall k, k < 7 -> exists y, to_float py_float (field r k) = Ok y) /\
  (field r 8 = None \/ exists e, to_float py_float (field r 8) = Ok e).

(** ** solver.py: lDPoissonExSolver.run

    The file system the sweep touches: the files next to the simulator
    executable, whether [dir_output] exists, the per-point directories
    under it, the arrays [np.save] has written there, and the log files a
    [logging.FileHandler] has opened (the records written to them are not
    modelled). Python exceptions abort with the state reached so far. *)

Record FileSystem := {
  app_dir : list string;
  dir_output_exists : bool;
  out_dirs : list string;
  saved : list string;
  logs : list string
}.

Definition M (A : Type) := FileSystem -> result A * FileSystem.

Definition ret {A} (a : A) : M A := fun fs => (Ok a, fs).

Definition mbind {A B} (m : M A) (k : A -> M B) : M B :=
  fun fs =>
    match m fs with
    | (Ok a, fs') => k a fs'
    | (Err e, fs') => (Err e, fs')
    end.

Notation "x <-- m ;;; k" := (mbind m (fun x => k))
  (at level 61, m at next level, right associativity).

Definition lift {A} (r : result A) : M A := fun fs => (r, fs).

Definition set_app_dir (files : list string) (fs : FileSystem) : FileSystem :=
  {| app_dir := files; dir_output_exists := dir_output_exists fs;
     out_dirs := out_dirs fs; saved := saved fs; logs := logs fs |}.

(** [open(path, "w")] *)
Definition write_file (name : string) : M unit :=
  fun fs =>
    (Ok tt, if in_dec string_dec name (app_dir fs) then fs
            else set_app_dir (app_dir fs ++ [name]) fs).

(** [os.makedirs(dir_output / name)]: FileExistsError when the directory
    exists; [dir_output] itself is created when missing. *)
Definition makedirs (name : string) : M unit :=
  fun fs =>
    if in_dec string_dec name (out_dirs fs) then (Err FileExistsError, fs)
    else (Ok tt, {| app_dir := app_dir fs; dir_output_exists := true;
                    out_dirs := out_dirs fs ++ [name]; saved := saved fs;
                    logs := logs fs |}).

(** [shutil.move(src, dir)]: FileNotFoundError when [src] is missing. *)
Definition move_file (name : string) : M unit :=
  fun fs =>
    if in_dec string_dec name (app_dir fs)
    then (Ok tt, set_app_dir (remove string_dec name (app_dir fs)) fs)
    else (Err FileNotFoundError, fs).

Fixpoint move_files (names : list string) : M unit :=
  match names with
  | [] => ret tt
  | n :: ns => _ <-- move_file n ;;; move_files ns
  end.

(** [np.save(dir_output / name, array)]: [open] raises FileNotFoundError
    when [dir_output] does not exist. *)
Definition np_save (name : string) : M unit :=
  fun fs =>
    if dir_output_exists fs
    then (Ok tt, {| app_dir := app_dir fs; dir_output_exists := true;
                    out_dirs := out_dirs fs; saved := saved fs ++ [name];
                    logs := logs fs |})
    else (Err FileNotFoundError, fs).

Section Run.

Variable format_field : string -> nat -> float -> result string.
Variable py_float : string -> result float.
(** The simulator: the files next to it after it ran on input [name]. *)
Variable simulate : string -> list string -> list string.
(** The rows of the report [name_Out.txt] it wrote. *)
Variable report : string -> list row.

(** [sp.run(...)] in the simulator's directory; its exit status is not read. *)
Definition invoke (name : string) : M unit :=
  fun fs => (Ok tt, set_app_dir (simulate name (app_dir fs)) fs).

(** [lDPoissonExSolver._run_single]; rendering the template does not fail
    ([jinja2] renders an undefined name as empty text). *)
Definition run_single (m : ParamsManager) (constants variables : dict float)
  : M OutputData :=
  input_file_name <-- lift (get_dir_name format_field m variables) ;;;
  _ <-- write_file (input_file_name ++ ".txt") ;;;
  _ <-- invoke input_file_name ;;;
  _ <-- makedirs input_file_name ;;;
  _ <-- move_files [input_file_name ++ ".txt";
                    input_file_name ++ "_Out.txt";
                    input_file_name ++ "_Status.txt";
                    input_file_name ++ "_Wave.txt"]%string ;;;
  lift (output_data py_float (report input_file_name)).

(** The loop of [run] over the sweep points. *)
Fixpoint sweep (m : ParamsManager) (points : list (dict float))
  (energies positions : list (option float))
  : M (list (option float) * list (option float)) :=
  match points with
  | [] => ret (energies, positions)
  | variables :: points' =>
      output <-- run_single m (pm_constants m) variables ;;;
      sweep m points' (energies ++ [energy_ground_state output])
                      (positions ++ [position_ground_state output])
  end.

Fixpoint save_variables (vars : dict (list float)) : M unit :=
  match vars with
  | [] => ret tt
  | (var_name, _) :: vars' =>
      _ <-- np_save (var_name ++ ".npy") ;;; save_variables vars'
  end.

(** [lDPoissonExSolver.run] *)
Definition run (m : ParamsManager) : M unit :=
  acc <-- sweep m (generate_variables m) [] [] ;;;
  _ <-- save_variables (pm_variables m) ;;;
  energies <-- lift (reshape (fst acc) (shape_variables m)) ;;;
  positions <-- lift (reshape (snd acc) (shape_variables m)) ;;;
  _ <-- np_save "energies_ground_states.npy" ;;;
  np_save "positions_ground_states.npy".

End Run.

(** * Sample inputs *)

Section Samples.
Open Scope string_scope.

Definition T_300 : Constant := {| const_name := "T"; const_value := 300%float |}.

(** [Variable(name="V", value=[0.0, 0.5], format="%.1f")] *)
Definition V_sweep : Variable_ :=
  {| var_name := "V"; var_value := VList [0%float; 0.5%float]; var_format := Some "%.1f" |}.

(** [Variable(name="V", value=[0.0, 0.5], format="{:.1f}")] *)
Definition V_brace : Variable_ :=
  {| var_name := "V"; var_value := VList [0%float; 0.5%float]; var_format := Some "{:.1f}" |}.

(** [Variable(name="W", value=[1.0, 2.0, 3.0], format="{:.1f}")] *)
Definition W_brace : Variable_ :=
  {| var_name := "W"; var_value := VList [1%float; 2%float; 3%float];
     var_format := Some "{:.1f}" |}.

(** [Variable(name="V", value=[0.0])], its format left at [None]. *)
Definition V_noformat : Variable_ :=
  {| var_name := "V"; var_value := VList [0%float]; var_format := None |}.

(** [Variable(name="T", value=[1.0], format="{:.1f}")]: the name of [T_300]. *)
Definition T_variable : Variable_ :=
  {| var_name := "T"; var_value := VList [1%float]; var_format := Some "{:.1f}" |}.

(** [Variable(name="V", value=Array(start=1.0, end=1.3, step=0.1), format="{:.1f}")] *)
Definition V_range : Variable_ :=
  {| var_name := "V";
     var_value := VArray {| start := 1%float; end_ := 1.3%float; step := 0.1%float |};
     var_format := Some "{:.1f}" |}.

(** [Variable(name="x", value=Array(start=0.0, end=1.0, step=0.25), format="{:.2f}")] *)
Definition x_quarter : Variable_ :=
  {| var_name := "x";
     var_value := VArray {| start := 0%float; end_ := 1%float; step := 0.25%float |};
     var_format := Some "{:.2f}" |}.

(** Python's [float] on unsigned decimal integer strings; anything else,
    the empty string included, is a ValueError. *)
Fixpoint digits_value (s : string) (acc : Z) : option Z :=
  match s with
  | EmptyString => Some acc
  | String c r =>
      let n := nat_of_ascii c in
      if andb (48 <=? n)%nat (n <=? 57)%nat
      then digits_value r (acc * 10 + Z.of_nat (n - 48))%Z
      else None
  end.

Definition int_float (s : string) : result float :=
  match s with
  | EmptyString => Err ValueError
  | _ =>
      match digits_value s 0%Z with
      | Some n => Ok (PrimFloat.of_uint63 (Uint63.of_Z n))
      | None => Err ValueError
      end
  end.

(** A simulator report: the header line, a blank line, and three data rows,
    the first one cell short (no eigen-energy). *)
Definition sample_report : list row :=
  [ ["z"; "Ec"; "Ev"; "F"; "Ef"; "n"; "p"; "psi"; "E0"];
    [];
    ["10"; "1"; "2"; "3"; "4"; "5"; "6"; "7"];
    ["20"; "1"; "2"; "3"; "4"; "5"; "6"; "7"; "42"];
    ["30"; "1"; "2"; "3"; "4"; "5"; "6"; "7"; "43"] ].

(** A simulator that writes no file, and a file system with only the
    simulator executable next to it and no [dir_output] yet. *)
Definition silent_simulator (name : string) (files : list string) : list string := files.

Definition empty_report (name : string) : list row := [].

Definition fresh_fs : FileSystem :=
  {| app_dir := ["1D Poisson"]; dir_output_exists := false; out_dirs := []; saved := [];
     logs := [] |}.

End Samples.

(** ** models.py: SimulationConfig; solver.py: lDPoissonExSolver.__init__; cli.py: main

    [dir_output] and [path_1d_poisson] are the places the [FileSystem]
    stands for. [load_simulation_config] (YAML and pydantic validation) is
    outside the model: [main] starts from the validated configuration. *)
Record SimulationConfig := {
  cfg_file_template : string;        (* [file_template: Path] *)
  cfg_log_file : option string;      (* [log_file: str | None = None] *)
  cfg_variables : list Variable_;    (* [variables: list[Variable] = []] *)
  cfg_constants : list Constant      (* [constants: list[Constant] = []] *)
}.

Section Cli.

Variable format_field : string -> nat -> float -> result string.
Variable py_float : string -> result float.
Variable simulate : string -> list string -> list string.
Variable report : string -> list row.
(** [self._env.get_template(config.file_template.name)]: TemplateNotFound
    for a missing file, or the template's syntax error. *)
Variable load_template : string -> result unit.
(** Whether the OS opens [log_file] for appending (missing directory,
    permissions). *)
Variable open_log : string -> result unit.

(** The logging handler of [lDPoissonExSolver.__init__]: a [StreamHandler]
    without [log_file], else a [FileHandler], which opens (and creates) the
    file at once. *)
Definition add_log_handler (log_file : option string) : M unit :=
  match log_file with
  | None => ret tt
  | Some f =>
      fun fs =>
        match open_log f with
        | Err e => (Err e, fs)
        | Ok _ =>
            (Ok tt, if in_dec string_dec f (logs fs) then fs
                    else {| app_dir := app_dir fs; dir_output_exists := dir_output_exists fs;
                            out_dirs := out_dirs fs; saved := saved fs;
                            logs := logs fs ++ [f] |})
        end
  end.

(** [lDPoissonExSolver(config)]: its [ParamsManager], its template, its
    logging handler. *)
Definition solver_init (config : SimulationConfig) : M ParamsManager :=
  m <-- lift (init (cfg_constants config) (cfg_variables config)) ;;;
  _ <-- lift (load_template (cfg_file_template config)) ;;;
  _ <-- add_log_handler (cfg_log_file config) ;;;
  ret m.

(** [cli.main]: [solver = lDPoissonExSolver(config); solver.run()]. *)
Definition main (config : SimulationConfig) : M unit :=
  m <-- solver_init config ;;;
  run format_field py_float simulate report m.

End Cli.

Section MoreSamples.
Open Scope string_scope.

(** [Variable(name="E", value=[], format="{:.1f}")] *)
Definition E_empty : Variable_ :=
  {| var_name := "E"; var_value := VList []; var_format := Some "{:.1f}" |}.

(** [Variable(name="V", value=Array(start=1.0, end=0.0, step=0.25), format="{:.2f}")] *)
Definition V_backward : Variable_ :=
  {| var_name := "V";
     var_value := VArray {| start := 1%float; end_ := 0%float; step := 0.25%float |};
     var_format := Some "{:.2f}" |}.

(** A simulator that writes its three output files next to itself, and
    whose report is [sample_report] for every input. *)
Definition echo_simulator (name : string) (files : list string) : list string :=
  files ++ [name ++ "_Out.txt"; name ++ "_Status.txt"; name ++ "_Wave.txt"].

Definition sample_reports (name : string) : list row := sample_report.

(** [SimulationConfig] with [constants=[T=300]], the default [variables],
    a template and a log file. *)
Definition constants_only_config : SimulationConfig :=
  {| cfg_file_template := "template.txt"; cfg_log_file := Some "sweep.log";
     cfg_variables := []; cfg_constants := [T_300] |}.

(** Reports: a data row of three cells; a data row whose eigen-energy cell is
    empty (a trailing tab); only the header line. *)
Definition short_report : list row :=
  [ ["z"; "Ec"; "Ev"; "F"; "Ef"; "n"; "p"; "psi"; "E0"];
    ["10"; "1"; "2"] ].

Definition empty_eigen_report : list row :=
  [ ["z"; "Ec"; "Ev"; "F"; "Ef"; "n"; "p"; "psi"; "E0"];
    ["10"; "1"; "2"; "3"; "4"; "5"; "6"; "7"];
    ["20"; "1"; "2"; "3"; "4"; "5"; "6"; "7"; ""];
    ["30"; "1"; "2"; "3"; "4"; "5"; "6"; "7"; "43"] ].

Definition header_only_report : list row :=
  [ ["z"; "Ec"; "Ev"; "F"; "Ef"; "n"; "p"; "psi"; "E0"]; [] ].

End MoreSamples.

(** The parameter managers of the samples, as [ParamsManager.__init__]
    builds them. *)
Definition brace_manager : ParamsManager :=
  {| pm_constants := [("T"%string, 300%float)];
     pm_variables := [("V"%string, [0%float; 0.5%float])];
     pm_variable_formats := [("V"%string, Some "{:.1f}"%string)] |}.

Definition empty_pool_manager : ParamsManager :=
  {| pm_constants := [("T"%string, 300%float)];
     pm_variables := [("V"%string, [0%float; 0.5%float]); ("E"%string, [])];
     pm_variable_formats := [("V"%string, Some "{:.1f}"%string);
                             ("E"%string, Some "{:.1f}"%string)] |}.

Definition two_variable_manager : ParamsManager :=
  {| pm_constants := [("T"%string, 300%float)];
     pm_variables := [("V"%string, [0%float; 0.5%float]);
                      ("W"%string, [1%float; 2%float; 3%float])];
     pm_variable_formats := [("V"%string, Some "{:.1f}"%string);
                             ("W"%string, Some "{:.1f}"%string)] |}.

Definition backward_manager : ParamsManager :=
  {| pm_constants := [];
     pm_variables := [("V"%string, [])];
     pm_variable_formats := [("V"%string, Some "{:.2f}"%string)] |}.

(** The state after the sweep of [brace_manager] with [echo_simulator]. *)
Definition brace_sweep_acc : list (option float) * list (option float) :=
  ([Some 42%float; Some 42%float], [Some 2%float; Some 2%float]).

Definition brace_sweep_fs : FileSystem :=
  {| app_dir := ["1D Poisson"%string]; dir_output_exists := true;
     out_dirs := ["V(0.0)"%string; "V(0.5)"%string]; saved := []; logs := [] |}.

(** * Proofs *)

(** ** Lists and products *)

Lemma flat_map_flat_map_eq {A B C} (g : B -> list C) (h : A -> list B) (l : list A) :
  flat_map g (flat_map h l) = flat_map (fun x => flat_map g (h x)) l.
Proof.
  induction l as [|x l IH]; simpl; [reflexivity|].
  rewrite flat_map_app, IH. reflexivity.
Qed.

Lemma flat_map_map_eq {A B C} (g : B -> list C) (h : A -> B) (l : list A) :
  flat_map g (map h l) = flat_map (fun x => g (h x)) l.
Proof. induction l as [|x l IH]; simpl; congruence. Qed.

Lemma map_flat_map_eq {A B C} (g : B -> C) (h : A -> list B) (l : list A) :
  map g (flat_map h l) = flat_map (fun x => map g (h x)) l.
Proof.
  induction l as [|x l IH]; simpl; [reflexivity|].
  rewrite map_app, IH. reflexivity.
Qed.

Lemma fold_product_eq {A} (pools : list (list A)) (acc : list (list A)) :
  fold_left (fun res pool => flat_map (fun x => map (fun y => x ++ [y]) pool) res)
            pools acc
  = flat_map (fun x => map (app x) (product_rec pools)) acc.
Proof.
  revert acc; induction pools as [|p ps IH]; intro acc; simpl.
  - induction acc as [|x acc IHa]; simpl; [reflexivity|].
    rewrite app_nil_r, <- IHa. reflexivity.
  - rewrite IH, flat_map_flat_map_eq.
    apply flat_map_ext; intro x.
    rewrite flat_map_map_eq, map_flat_map_eq.
    apply flat_map_ext; intro y.
    rewrite map_map. apply map_ext; intro r.
    rewrite <- app_assoc. reflexivity.
Qed.

Lemma itertools_product_rec {A} (pools : list (list A)) :
  itertools_product pools = product_rec pools.
Proof.
  unfold itertools_product. rewrite fold_product_eq. simpl.
  rewrite app_nil_r. induction (product_rec pools) as [|r rs IH]; simpl; congruence.
Qed.

Lemma fold_mul_acc (l : list nat) (k : nat) :
  fold_left Nat.mul l k = k * fold_left Nat.mul l 1.
Proof.
  revert k; induction l as [|n l IH]; intro k; cbn [fold_left]; [lia|].
  rewrite (IH (k * n)), (IH (1 * n)). lia.
Qed.

Lemma prod_cons (n : nat) (l : list nat) : prod (n :: l) = n * prod l.
Proof. unfold prod; simpl. rewrite fold_mul_acc. lia. Qed.

Lemma length_flat_map_const {A B} (g : A -> list B) (k : nat) (l : list A) :
  (forall y, List.length (g y) = k) ->
  List.length (flat_map g l) = List.length l * k.
Proof.
  intro Hk; induction l as [|y l IH]; simpl; [reflexivity|].
  rewrite length_app, IH, Hk. reflexivity.
Qed.

Lemma product_rec_length {A} (pools : list (list A)) :
  List.length (product_rec pools) = prod (map (@List.length A) pools).
Proof.
  induction pools as [|p ps IH]; simpl; [reflexivity|].
  rewrite prod_cons.
  rewrite (length_flat_map_const _ (List.length (product_rec ps))).
  - rewrite IH. reflexivity.
  - intro y. apply length_map.
Qed.

Lemma nth_error_flat_map_block {A B} (g : A -> list B) (k : nat) (l : list A) :
  (forall y, List.length (g y) = k) ->
  forall i j x, nth_error l i = Some x -> j < k ->
  nth_error (flat_map g l) (i * k + j) = nth_error (g x) j.
Proof.
  intros Hk; induction l as [|y l IH]; intros i j x Hi Hj.
  - destruct i; discriminate.
  - simpl. destruct i as [|i]; simpl in Hi.
    + injection Hi as ->. simpl. apply nth_error_app1. rewrite Hk. exact Hj.
    + rewrite nth_error_app2 by (rewrite Hk; lia).
      rewrite Hk. replace (S i * k + j - k) with (i * k + j) by lia.
      apply IH; assumption.
Qed.

Lemma product_rec_nth (pools : list (list float)) (idx : list nat) :
  in_bounds (map (@List.length float) pools) idx = true ->
  nth_error (product_rec pools) (c_offset (map (@List.length float) pools) idx)
  = Some (pick pools idx).
Proof.
  revert idx; induction pools as [|p ps IH]; intros idx Hb.
  - destruct idx; [reflexivity|discriminate].
  - destruct idx as [|i idx]; [discriminate|].
    simpl in Hb. apply andb_prop in Hb as [Hi Hb].
    apply Nat.ltb_lt in Hi.
    specialize (IH idx Hb).
    simpl. rewrite <- product_rec_length.
    rewrite (nth_error_flat_map_block _ (List.length (product_rec ps)) p)
      with (x := nth i p 0%float).
    + rewrite nth_error_map, IH. reflexivity.
    + intro y. apply length_map.
    + apply nth_error_nth'. exact Hi.
    + apply nth_error_Some. rewrite IH. discriminate.
Qed.

(** ** ParamsManager *)

Lemma dict_set_not_nil {A} (d : dict A) k v : dict_set d k v <> [].
Proof. destruct d as [|[k' v'] d]; simpl; [|destruct (String.eqb k k')]; discriminate. Qed.

Lemma init_variables_not_nil d vs d' :
  init_variables d vs = Ok d' -> vs <> [] \/ d <> [] -> d' <> [].
Proof.
  revert d; induction vs as [|var vs IH]; intros d H Hne; simpl in H.
  - injection H as <-. destruct Hne as [Hne|Hne]; [congruence|exact Hne].
  - destruct (var_value var) as [l|a].
    + apply (IH _ H). right. apply dict_set_not_nil.
    + destruct (arange (start a) (end_ a) (step a)) as [l|e]; simpl in H;
        [|discriminate].
      apply (IH _ H). right. apply dict_set_not_nil.
Qed.

Lemma init_variables_nil d : init_variables d [] = Ok d.
Proof. reflexivity. Qed.

Lemma init_inv constants variables m :
  init constants variables = Ok m ->
  init_variables [] variables = Ok (pm_variables m) /\
  pm_constants m = fold_left (fun d c => dict_set d (const_name c) (const_value c))
                             constants [].
Proof.
  unfold init. destruct (init_variables [] variables) as [vs|e]; simpl;
    intro H; [|discriminate].
  injection H as <-. simpl. split; reflexivity.
Qed.

Lemma generate_variables_length m :
  List.length (generate_variables m) = prod (shape_variables m).
Proof.
  unfold generate_variables, shape_variables.
  destruct (pm_variables m) as [|kv vars] eqn:Hv; [reflexivity|].
  rewrite length_map, itertools_product_rec, product_rec_length, map_map.
  reflexivity.
Qed.

(** C1: the sweep yields [prod(shape_variables)] points; with no variable
    declared it yields exactly one point, the constants mapping. *)
Theorem generate_variables_count (constants : list Constant)
  (variables : list Variable_) (m : ParamsManager) :
  init constants variables = Ok m ->
  List.length (generate_variables m) = prod (shape_variables m) /\
  (variables = [] -> generate_variables m = [pm_constants m]).
Proof.
  intro Hinit. split; [apply generate_variables_length|].
  intros ->. apply init_inv in Hinit as [Hv _].
  rewrite init_variables_nil in Hv. injection Hv as Hv.
  unfold generate_variables. rewrite <- Hv. reflexivity.
Qed.

(** C2: filling a buffer in iteration order and reshaping it to
    [shape_variables] (as [lDPoissonExSolver.run] does) puts at
    [(i0, i1, ...)] the value computed for the point whose k-th variable took
    its [i_k]-th value: the last-declared variable varies fastest. *)
Theorem reshape_generate_roundtrip {B : Type} (f : dict float -> B)
  (constants : list Constant) (variables : list Variable_) (m : ParamsManager)
  (idx : list nat) :
  init constants variables = Ok m ->
  variables <> [] ->
  in_bounds (shape_variables m) idx = true ->
  exists a,
    reshape (map f (generate_variables m)) (shape_variables m) = Ok a /\
    nd_get a idx
    = Ok (f (dict_of_pairs (combine (map fst (pm_variables m))
                                    (pick (map snd (pm_variables m)) idx)))).
Proof.
  intros Hinit Hne Hb.
  assert (Hvne : pm_variables m <> []).
  { apply init_inv in Hinit as [Hv _].
    apply (init_variables_not_nil _ _ _ Hv). left. exact Hne. }
  unfold reshape. rewrite length_map, generate_variables_length, Nat.eqb_refl.
  eexists; split; [reflexivity|].
  unfold nd_get; simpl. rewrite Hb.
  assert (Hshape : shape_variables m = map (@List.length float) (map snd (pm_variables m))).
  { unfold shape_variables. rewrite map_map. reflexivity. }
  rewrite Hshape in Hb |- *.
  unfold generate_variables.
  destruct (pm_variables m) as [|kv vars] eqn:Hv; [contradiction|].
  rewrite <- Hv in Hb |- *.
  rewrite map_map, nth_error_map, itertools_product_rec, product_rec_nth by exact Hb.
  reflexivity.
Qed.

(** ** Name collisions *)

Lemma dict_get_set {A} (d : dict A) k k' v :
  dict_get (dict_set d k' v) k = if String.eqb k k' then Some v else dict_get d k.
Proof.
  induction d as [|[k1 v1] d IH]; simpl.
  - reflexivity.
  - destruct (String.eqb k' k1) eqn:E1.
    + apply String.eqb_eq in E1 as ->. simpl.
      destruct (String.eqb k k1); reflexivity.
    + simpl. destruct (String.eqb k k1) eqn:E2; [|exact IH].
      apply String.eqb_eq in E2 as ->.
      rewrite String.eqb_sym, E1. reflexivity.
Qed.

Lemma dict_get_fold_set {A X} (key : X -> string) (val : X -> A) (l : list X)
  (d : dict A) (k : string) :
  dict_get (fold_left (fun d x => dict_set d (key x) (val x)) l d) k
  = fold_left (fun acc x => if String.eqb k (key x) then Some (val x) else acc)
              l (dict_get d k).
Proof.
  revert d; induction l as [|x l IH]; intro d; simpl; [reflexivity|].
  rewrite IH, dict_get_set. reflexivity.
Qed.

Lemma init_variables_lists d vs :
  forallb is_list_variable vs = true ->
  init_variables d vs
  = Ok (fold_left (fun d v => dict_set d (var_name v) (var_list v)) vs d).
Proof.
  revert d; induction vs as [|v vs IH]; intros d Hl; simpl in *; [reflexivity|].
  apply andb_prop in Hl as [Hv Hl].
  unfold is_list_variable, var_list in *.
  destruct (var_value v) as [l|a]; [|discriminate].
  apply IH, Hl.
Qed.

(** C3 (amended): [ParamsManager.__init__] has no collision check. With
    explicit value lists it always succeeds; a repeated name keeps the value
    of its last declaration, separately among constants and among variables,
    so a name declared both as a constant and as a variable is in both maps. *)
Theorem init_keeps_colliding_names (constants : list Constant)
  (variables : list Variable_) :
  forallb is_list_variable variables = true ->
  exists m,
    init constants variables = Ok m /\
    forall k,
      dict_get (pm_constants m) k = last_const_value k constants /\
      dict_get (pm_variables m) k = last_var_list k variables.
Proof.
  intro Hl. unfold init. rewrite (init_variables_lists _ _ Hl). simpl.
  eexists; split; [reflexivity|]. intro k; simpl. split.
  - rewrite (dict_get_fold_set const_name const_value). reflexivity.
  - rewrite (dict_get_fold_set var_name var_list). reflexivity.
Qed.

(** ** Identifiers *)

Lemma dict_set_keys {A B} (d1 : dict A) (d2 : dict B) k v1 v2 :
  map fst d1 = map fst d2 -> map fst (dict_set d1 k v1) = map fst (dict_set d2 k v2).
Proof.
  revert d2; induction d1 as [|[k1 a] d1 IH]; intros [|[k2 b] d2] H;
    simpl in *; try discriminate; [reflexivity|].
  injection H as -> H. destruct (String.eqb k k2); simpl; [congruence|].
  f_equal. apply IH, H.
Qed.

Lemma init_variables_keys d d0 vs d' :
  map fst d = map fst d0 ->
  init_variables d vs = Ok d' ->
  map fst d' = map fst (fold_left (fun d kv => dict_set d (fst kv) (snd kv))
                          (map (fun v => (var_name v, var_format v)) vs) d0).
Proof.
  revert d d0; induction vs as [|v vs IH]; intros d d0 Hk H; simpl in H.
  - injection H as <-. exact Hk.
  - simpl. destruct (var_value v) as [l|a].
    + apply (IH _ _ (dict_set_keys _ _ _ _ _ Hk) H).
    + destruct (arange (start a) (end_ a) (step a)) as [l|e]; simpl in H;
        [|discriminate].
      apply (IH _ _ (dict_set_keys _ _ _ _ _ Hk) H).
Qed.

Lemma variables_formats_keys constants variables m :
  init constants variables = Ok m ->
  map fst (pm_variables m) = map fst (pm_variable_formats m).
Proof.
  unfold init. destruct (init_variables [] variables) as [vs|e] eqn:Hv;
    simpl; intro H; [|discriminate].
  injection H as <-. simpl. apply (init_variables_keys [] [] _ _ eq_refl Hv).
Qed.

Lemma dict_set_nodup {A} (d : dict A) k v :
  NoDup (map fst d) -> NoDup (map fst (dict_set d k v)).
Proof.
  induction d as [|[k1 a] d IH]; simpl; intro H.
  - constructor; [intros []|constructor].
  - inversion H as [|? ? Hn Hd]; subst.
    destruct (String.eqb k k1) eqn:E; simpl; [exact H|].
    constructor; [|apply IH, Hd].
    intro Hin. apply Hn.
    clear -Hin E. induction d as [|[k2 b] d IHd]; simpl in *.
    + destruct Hin as [->|[]]. rewrite String.eqb_refl in E. discriminate.
    + destruct (String.eqb k k2); simpl in Hin; [exact Hin|].
      destruct Hin as [Hin|Hin]; [left; exact Hin|right; apply IHd, Hin].
Qed.

Lemma init_variables_nodup d vs d' :
  NoDup (map fst d) -> init_variables d vs = Ok d' -> NoDup (map fst d').
Proof.
  revert d; induction vs as [|v vs IH]; intros d Hd H; simpl in H.
  - injection H as <-. exact Hd.
  - destruct (var_value v) as [l|a].
    + apply (IH _ (dict_set_nodup _ _ _ Hd) H).
    + destruct (arange (start a) (end_ a) (step a)) as [l|e]; simpl in H;
        [|discriminate].
      apply (IH _ (dict_set_nodup _ _ _ Hd) H).
Qed.

Lemma dict_set_fresh {A} (d : dict A) k v :
  ~ In k (map fst d) -> dict_set d k v = d ++ [(k, v)].
Proof.
  induction d as [|[k1 a] d IH]; simpl; intro Hn; [reflexivity|].
  destruct (String.eqb k k1) eqn:E.
  - apply String.eqb_eq in E. exfalso. apply Hn. left. congruence.
  - rewrite IH; [reflexivity|]. intro Hin. apply Hn. right. exact Hin.
Qed.

Lemma fold_set_fresh {A} (ps : list (string * A)) (d : dict A) :
  NoDup (map fst (d ++ ps)) ->
  fold_left (fun d kv => dict_set d (fst kv) (snd kv)) ps d = d ++ ps.
Proof.
  revert d; induction ps as [|[k v] ps IH]; intros d H; simpl.
  - rewrite app_nil_r. reflexivity.
  - rewrite dict_set_fresh.
    + rewrite IH; [rewrite <- app_assoc; reflexivity|].
      rewrite <- app_assoc. exact H.
    + rewrite map_app in H. simpl in H.
      apply NoDup_remove_2 in H. intro Hin. apply H. apply in_or_app. left. exact Hin.
Qed.

Lemma dict_of_pairs_nodup {A} (ps : list (string * A)) :
  NoDup (map fst ps) -> dict_of_pairs ps = ps.
Proof. intro H. unfold dict_of_pairs. apply (fold_set_fresh ps []). exact H. Qed.

Lemma product_rec_in_length {A} (pools : list (list A)) c :
  In c (product_rec pools) -> List.length c = List.length pools.
Proof.
  revert c; induction pools as [|p ps IH]; intros c Hc; simpl in Hc.
  - destruct Hc as [<-|[]]. reflexivity.
  - apply in_flat_map in Hc as [y [_ Hc]].
    apply in_map_iff in Hc as [c' [<- Hc']]. simpl. f_equal. apply IH, Hc'.
Qed.

Lemma map_fst_combine {A B} (l1 : list A) (l2 : list B) :
  List.length l2 = List.length l1 -> map fst (combine l1 l2) = l1.
Proof.
  revert l2; induction l1 as [|x l1 IH]; intros [|y l2] H; simpl in *;
    try discriminate; [reflexivity|].
  f_equal. apply IH. congruence.
Qed.

Lemma generate_variables_points constants variables m p :
  init constants variables = Ok m -> variables <> [] ->
  In p (generate_variables m) ->
  exists c, In c (product_rec (map snd (pm_variables m))) /\
            p = combine (map fst (pm_variables m)) c.
Proof.
  intros Hinit Hne Hp.
  pose proof (init_inv _ _ _ Hinit) as [Hv _].
  pose proof (init_variables_nodup [] _ _ (NoDup_nil _) Hv) as Hnd.
  assert (Hvne : pm_variables m <> []).
  { apply (init_variables_not_nil _ _ _ Hv). left. exact Hne. }
  unfold generate_variables in Hp.
  destruct (pm_variables m) as [|kv vars] eqn:E; [contradiction|].
  rewrite <- E in *.
  apply in_map_iff in Hp as [c [<- Hc]].
  rewrite itertools_product_rec in Hc.
  exists c. split; [exact Hc|].
  apply dict_of_pairs_nodup.
  rewrite map_fst_combine; [exact Hnd|].
  rewrite (product_rec_in_length _ _ Hc), length_map, length_map. reflexivity.
Qed.

Lemma generate_variables_keys constants variables m p :
  init constants variables = Ok m -> variables <> [] ->
  In p (generate_variables m) -> map fst p = map fst (pm_variables m).
Proof.
  intros Hinit Hne Hp.
  destruct (generate_variables_points _ _ _ _ Hinit Hne Hp) as [c [Hc ->]].
  apply map_fst_combine.
  rewrite (product_rec_in_length _ _ Hc), length_map, length_map. reflexivity.
Qed.

Lemma dict_get_in {A} (d : dict A) k : In k (map fst d) -> dict_get d k <> None.
Proof.
  induction d as [|[k1 a] d IH]; simpl; [intros []|].
  intros [->|Hin]; [rewrite String.eqb_refl; discriminate|].
  destruct (String.eqb k k1); [discriminate|]. apply IH, Hin.
Qed.

Lemma last_fold_some {X A} (key : X -> string) (val : X -> A) k l acc y :
  fold_left (fun acc x => if String.eqb k (key x) then Some (val x) else acc) l acc
  = Some y -> acc = Some y \/ exists x, In x l /\ val x = y.
Proof.
  revert acc; induction l as [|x l IH]; intros acc H; simpl in H; [left; exact H|].
  destruct (IH _ H) as [H'|[x' [Hin Hx]]].
  - destruct (String.eqb k (key x)); [|left; exact H'].
    right. exists x. split; [left; reflexivity|congruence].
  - right. exists x'. split; [right; exact Hin|exact Hx].
Qed.

Lemma fold_left_map_eq {X Y A} (f : A -> Y -> A) (g : X -> Y) l a :
  fold_left f (map g l) a = fold_left (fun a x => f a (g x)) l a.
Proof. revert a; induction l; simpl; auto. Qed.

Lemma variable_formats_get constants variables m k :
  init constants variables = Ok m ->
  dict_get (pm_variable_formats m) k = last_var_format k variables.
Proof.
  unfold init. destruct (init_variables [] variables); simpl; intro H;
    [|discriminate].
  injection H as <-. simpl. unfold dict_of_pairs.
  rewrite (dict_get_fold_set fst snd), fold_left_map_eq. reflexivity.
Qed.

Lemma map_result_ext {A B} (f g : A -> result B) xs :
  (forall x, In x xs -> f x = g x) -> map_result f xs = map_result g xs.
Proof.
  induction xs as [|x xs IH]; intro H; simpl; [reflexivity|].
  rewrite (H x (or_introl eq_refl)), IH; [reflexivity|].
  intros y Hy. apply H. right. exact Hy.
Qed.

Lemma string_append_empty_r (s : string) : (s ++ EmptyString)%string = s.
Proof. induction s as [|c s IH]; simpl; congruence. Qed.

Lemma string_append_assoc (a b c : string) : (a ++ (b ++ c) = (a ++ b) ++ c)%string.
Proof. induction a as [|x a IH]; simpl; congruence. Qed.

Lemma str_format_go_no_braces format_field s auto v out :
  has_no_braces s = true ->
  str_format_go format_field s None auto v out = Ok (out ++ s)%string.
Proof.
  revert out; induction s as [|c s IH]; intros out H; simpl.
  - rewrite string_append_empty_r. reflexivity.
  - unfold has_no_braces in H. simpl in H.
    apply andb_prop in H as [Hc H].
    destruct (Ascii.eqb c "{"%char); [discriminate|].
    destruct (Ascii.eqb c "}"%char); [discriminate|].
    rewrite IH by exact H. rewrite <- string_append_assoc. reflexivity.
Qed.

(** C4 (amended): with at least one variable declared, every point has
    exactly the variable names as keys, in declaration order, and when every
    variable declares a format, [_get_dir_name] is the segments
    [name(format_str.format(value))] joined by ["_"]; [format_str.format] is
    Python's [str.format], which copies a format without braces (such as the
    printf-style ["%.1f"]) literally. *)
Theorem get_dir_name_variable_segments
  (format_field : string -> nat -> float -> result string)
  (constants : list Constant) (variables : list Variable_) (m : ParamsManager)
  (p : dict float) :
  init constants variables = Ok m ->
  variables <> [] ->
  Forall (fun v => var_format v <> None) variables ->
  In p (generate_variables m) ->
  map fst p = map fst (pm_variables m) /\
  get_dir_name format_field m p
  = (segs <- map_result
              (fun kv => segment format_field (declared_format (fst kv) variables)
                                 (fst kv) (snd kv)) p ;;
     Ok (String.concat "_" segs)) /\
  (forall fmt v, has_no_braces fmt = true -> str_format format_field fmt v = Ok fmt).
Proof.
  intros Hinit Hne Hfmt Hp.
  pose proof (generate_variables_keys _ _ _ _ Hinit Hne Hp) as Hkeys.
  split; [exact Hkeys|split].
  - unfold get_dir_name. f_equal.
    apply map_result_ext. intros [k v] Hin; simpl.
    assert (Hk : In k (map fst (pm_variable_formats m))).
    { rewrite <- (variables_formats_keys _ _ _ Hinit), <- Hkeys.
      apply in_map_iff. exists (k, v). split; [reflexivity|exact Hin]. }
    apply dict_get_in in Hk.
    rewrite (variable_formats_get _ _ _ _ Hinit) in Hk |- *.
    unfold declared_format.
    destruct (last_var_format k variables) as [o|] eqn:E; [|contradiction].
    apply last_fold_some in E as [E|[x [Hx <-]]]; [discriminate|].
    rewrite Forall_forall in Hfmt.
    destruct (var_format x) as [f|] eqn:Ef; [reflexivity|].
    exfalso. exact (Hfmt x Hx Ef).
  - intros fmt v H. unfold str_format.
    rewrite str_format_go_no_braces by exact H. reflexivity.
Qed.

(** ** OutputData *)

Ltac bind_inv H :=
  repeat match type of H with
  | context [bind ?x _] =>
      let E := fresh "E" in
      destruct x eqn:E; simpl in H; [|discriminate]
  end.

Section OutputDataProofs.

Variable py_float : string -> result float.

Lemma process_row_ok acc r acc' :
  process_row py_float acc r = Ok acc' ->
  exists y ec ev ef fe ne nh,
    to_float py_float (field r 0) = Ok y /\
    to_float py_float (field r 1) = Ok ec /\
    to_float py_float (field r 2) = Ok ev /\
    to_float py_float (field r 3) = Ok ef /\
    to_float py_float (field r 4) = Ok fe /\
    to_float py_float (field r 5) = Ok ne /\
    to_float py_float (field r 6) = Ok nh /\
    z acc' = z acc ++ [(y / 10)%float] /\
    energy_conduction acc' = energy_conduction acc ++ [ec] /\
    energy_valence acc' = energy_valence acc ++ [ev] /\
    electric_field acc' = electric_field acc ++ [ef] /\
    energy_fermi acc' = energy_fermi acc ++ [fe] /\
    density_electron acc' = density_electron acc ++ [ne] /\
    density_hole acc' = density_hole acc ++ [nh] /\
    ((energy_ground_state acc <> None \/ field r 8 = None) /\
     energy_ground_state acc' = energy_ground_state acc /\
     position_ground_state acc' = position_ground_state acc
     \/
     exists s e, field r 8 = Some s /\ energy_ground_state acc = None /\
       py_float s = Ok e /\
       energy_ground_state acc' = Some e /\
       position_ground_state acc' = Some (y / 10)%float).
Proof.
  unfold process_row. intro H.
  destruct (to_float py_float (field r 0)) as [y|] eqn:E0; simpl in H; [|discriminate].
  bind_inv H.
  do 7 eexists; repeat (split; [eassumption|]).
  destruct (field r 8) as [s|] eqn:E8;
    [destruct (energy_ground_state acc) as [g|] eqn:Eg|]; simpl in H.
  - injection H as <-. simpl. repeat (split; [reflexivity|]).
    left. split; [left; discriminate|split; reflexivity].
  - bind_inv H.
    injection H as <-. simpl. repeat (split; [reflexivity|]).
    right. exists s, a5. repeat split; assumption.
  - injection H as <-. simpl. repeat (split; [reflexivity|]).
    left. split; [right; reflexivity|split; reflexivity].
Qed.

Lemma parse_rows_cons i r rows acc :
  parse_rows py_float (S i) (r :: rows) acc
  = bind (process_row py_float acc r) (fun acc' => parse_rows py_float (S (S i)) rows acc').
Proof. reflexivity. Qed.

Lemma output_data_inv rows out :
  output_data py_float rows = Ok out ->
  parse_rows py_float 1 (data_rows rows) empty_output = Ok out.
Proof.
  unfold output_data, data_rows.
  destruct (filter nonblank rows) as [|h data]; simpl; [|exact (fun H => H)].
  intro H. exact H.
Qed.

Lemma parse_rows_series i rows acc out :
  parse_rows py_float (S i) rows acc = Ok out ->
  (exists zs, z out = z acc ++ zs) /\
  List.length (z out) = List.length (z acc) + List.length rows /\
  List.length (energy_conduction out) = List.length (energy_conduction acc) + List.length rows /\
  List.length (energy_valence out) = List.length (energy_valence acc) + List.length rows /\
  List.length (electric_field out) = List.length (electric_field acc) + List.length rows /\
  List.length (energy_fermi out) = List.length (energy_fermi acc) + List.length rows /\
  List.length (density_electron out) = List.length (density_electron acc) + List.length rows /\
  List.length (density_hole out) = List.length (density_hole acc) + List.length rows.
Proof.
  revert i acc; induction rows as [|r rows IH]; intros i acc H.
  - injection H as <-. split; [exists []; rewrite app_nil_r; reflexivity|].
    simpl. lia.
  - rewrite parse_rows_cons in H.
    destruct (process_row py_float acc r) as [acc1|] eqn:Hr; simpl in H; [|discriminate].
    apply process_row_ok in Hr as
      (y & ec & ev & ef & fe & ne & nh & _ & _ & _ & _ & _ & _ & _ &
       Hz & Hc & Hv & Hf & Hfe & Hn & Hh & _).
    destruct (IH _ _ H) as ([zs Hzs] & L1 & L2 & L3 & L4 & L5 & L6 & L7).
    rewrite Hz, <- app_assoc in Hzs.
    split; [eexists; exact Hzs|].
    rewrite Hz, Hc, Hv, Hf, Hfe, Hn, Hh in *.
    rewrite !length_app in *. simpl in *. lia.
Qed.

Lemma parse_rows_ground_fixed i rows acc out e :
  parse_rows py_float (S i) rows acc = Ok out ->
  energy_ground_state acc = Some e ->
  energy_ground_state out = Some e /\
  position_ground_state out = position_ground_state acc.
Proof.
  revert i acc; induction rows as [|r rows IH]; intros i acc H He.
  - injection H as <-. split; [exact He|reflexivity].
  - rewrite parse_rows_cons in H.
    destruct (process_row py_float acc r) as [acc1|] eqn:Hr; simpl in H; [|discriminate].
    apply process_row_ok in Hr as (y & _ & _ & _ & _ & _ & _ & _ & _ & _ & _ & _ & _ & _ &
                                   _ & _ & _ & _ & _ & _ & _ & Hg).
    destruct Hg as [(_ & Hg & Hp)|(s & e' & _ & Hn & _)]; [|congruence].
    rewrite He in Hg. destruct (IH _ _ H Hg) as [H1 H2].
    split; [exact H1|congruence].
Qed.

Lemma parse_rows_z i rows acc out :
  parse_rows py_float (S i) rows acc = Ok out ->
  forall j r, nth_error rows j = Some r ->
  exists y, to_float py_float (field r 0) = Ok y /\
            nth_error (z out) (List.length (z acc) + j) = Some (y / 10)%float.
Proof.
  revert i acc; induction rows as [|r0 rows IH]; intros i acc H j r Hj;
    [destruct j; discriminate|].
  rewrite parse_rows_cons in H.
  destruct (process_row py_float acc r0) as [acc1|] eqn:Hr; simpl in H; [|discriminate].
  pose proof (parse_rows_series _ _ _ _ H) as ([zs Hzs] & _).
  apply process_row_ok in Hr as (y & _ & _ & _ & _ & _ & _ & E0 & _ & _ & _ & _ & _ & _ &
                                 Hz & _).
  destruct j as [|j]; simpl in Hj.
  - injection Hj as <-. exists y. split; [exact E0|].
    rewrite Hzs, Hz, <- app_assoc, Nat.add_0_r, nth_error_app2 by lia.
    rewrite Nat.sub_diag. reflexivity.
  - destruct (IH _ _ H j r Hj) as [y' [E Hy']]. exists y'. split; [exact E|].
    rewrite Hz, length_app in Hy'. simpl in Hy'.
    rewrite <- Hy'. f_equal. lia.
Qed.

Lemma parse_rows_ground_first i rows acc out :
  parse_rows py_float (S i) rows acc = Ok out ->
  energy_ground_state acc = None ->
  (energy_ground_state out = None /\
   position_ground_state out = position_ground_state acc /\
   Forall (fun r => field r 8 = None) rows)
  \/
  (exists j r s e y,
     nth_error rows j = Some r /\ field r 8 = Some s /\ py_float s = Ok e /\
     to_float py_float (field r 0) = Ok y /\
     (forall j' r', j' < j -> nth_error rows j' = Some r' -> field r' 8 = None) /\
     energy_ground_state out = Some e /\
     position_ground_state out = Some (y / 10)%float /\
     nth_error (z out) (List.length (z acc) + j) = Some (y / 10)%float).
Proof.
  revert i acc; induction rows as [|r rows IH]; intros i acc H He.
  - injection H as <-. left. split; [exact He|split; [reflexivity|constructor]].
  - pose proof H as H0.
    rewrite parse_rows_cons in H.
    destruct (process_row py_float acc r) as [acc1|] eqn:Hr; simpl in H; [|discriminate].
    pose proof (parse_rows_series _ _ _ _ H) as ([zs Hzs] & _).
    apply process_row_ok in Hr as (y & _ & _ & _ & _ & _ & _ & E0 & _ & _ & _ & _ & _ & _ &
                                   Hz & _ & _ & _ & _ & _ & _ & Hg).
    destruct Hg as [([Hne|H8] & Hg & Hp)|(s & e & H8 & _ & Hs & Hg & Hp)].
    + contradiction.
    + rewrite He in Hg.
      destruct (IH _ _ H Hg) as [(Ho & Hpo & Hall)|(j & r' & s & e & y' & Hj & Hrest)].
      * left. split; [exact Ho|split; [congruence|constructor; assumption]].
      * right. exists (S j), r', s, e, y'.
        destruct Hrest as (H8' & Hs & Hy & Hbefore & Ho & Hpo & Hzo).
        repeat split; try assumption.
        -- intros [|j'] r'' Hlt Hr''; simpl in Hr''.
           ++ injection Hr'' as <-. exact H8.
           ++ apply (Hbefore j' r''); [lia|exact Hr''].
        -- rewrite Hz, length_app in Hzo. simpl in Hzo.
           rewrite <- Hzo. f_equal. lia.
    + right. exists 0, r, s, e, y.
      destruct (parse_rows_ground_fixed _ _ _ _ _ H Hg) as [Ho Hpo].
      repeat split; try assumption.
      * intros j' r' Hlt. lia.
      * congruence.
      * rewrite Hzs, Hz, <- app_assoc, Nat.add_0_r, nth_error_app2 by lia.
        rewrite Nat.sub_diag. reflexivity.
Qed.

Lemma process_row_total acc r :
  well_formed_row py_float r -> exists acc', process_row py_float acc r = Ok acc'.
Proof.
  intros [H7 H8]. unfold process_row.
  destruct (H7 0 ltac:(lia)) as [y E0]. rewrite E0; simpl.
  destruct (H7 1 ltac:(lia)) as [y1 E1]. rewrite E1; simpl.
  destruct (H7 2 ltac:(lia)) as [y2 E2]. rewrite E2; simpl.
  destruct (H7 3 ltac:(lia)) as [y3 E3]. rewrite E3; simpl.
  destruct (H7 4 ltac:(lia)) as [y4 E4]. rewrite E4; simpl.
  destruct (H7 5 ltac:(lia)) as [y5 E5]. rewrite E5; simpl.
  destruct (H7 6 ltac:(lia)) as [y6 E6]. rewrite E6; simpl.
  destruct H8 as [H8|[e E8]].
  - rewrite H8. eexists; reflexivity.
  - destruct (field r 8) as [s|] eqn:F8; [|eexists; reflexivity].
    destruct (energy_ground_state acc); [eexists; reflexivity|].
    simpl in E8 |- *. rewrite E8. simpl. eexists; reflexivity.
Qed.

Lemma parse_rows_total i rows acc :
  Forall (well_formed_row py_float) rows ->
  exists out, parse_rows py_float (S i) rows acc = Ok out.
Proof.
  revert i acc; induction rows as [|r rows IH]; intros i acc H.
  - eexists; reflexivity.
  - inversion H as [|? ? Hr Hrs]; subst.
    destruct (process_row_total acc r Hr) as [acc1 E].
    rewrite parse_rows_cons, E. simpl. apply IH, Hrs.
Qed.

End OutputDataProofs.

Lemma output_data_total py_float rows :
  Forall (well_formed_row py_float) (data_rows rows) ->
  exists out, output_data py_float rows = Ok out.
Proof.
  unfold output_data, data_rows.
  destruct (filter nonblank rows) as [|h data]; simpl; intro H.
  - eexists; reflexivity.
  - apply parse_rows_total, H.
Qed.

(** C8: a report whose data rows are well formed is parsed; row 0 is not
    parsed; each of the seven series has one entry per data row, and the
    position entry is the first cell divided by 10. *)
Theorem output_data_series (py_float : string -> result float) (rows : list row) :
  Forall (well_formed_row py_float) (data_rows rows) ->
  exists out,
    output_data py_float rows = Ok out /\
    List.length (z out) = List.length (data_rows rows) /\
    List.length (energy_conduction out) = List.length (data_rows rows) /\
    List.length (energy_valence out) = List.length (data_rows rows) /\
    List.length (electric_field out) = List.length (data_rows rows) /\
    List.length (energy_fermi out) = List.length (data_rows rows) /\
    List.length (density_electron out) = List.length (data_rows rows) /\
    List.length (density_hole out) = List.length (data_rows rows) /\
    (forall j r, nth_error (data_rows rows) j = Some r ->
       exists y, to_float py_float (field r 0) = Ok y /\
                 nth_error (z out) j = Some (y / 10)%float).
Proof.
  intro Hwf.
  destruct (output_data_total _ _ Hwf) as [out Hout].
  exists out. split; [exact Hout|].
  apply output_data_inv in Hout.
  pose proof (parse_rows_series _ _ _ _ _ Hout) as (_ & L1 & L2 & L3 & L4 & L5 & L6 & L7).
  simpl in L1, L2, L3, L4, L5, L6, L7.
  repeat (split; [assumption|]).
  intros j r Hj. apply (parse_rows_z _ _ _ _ _ Hout j r Hj).
Qed.

(** C7: the ground-state energy and position come from the first data row
    whose eigen-energy (9th) cell is non-empty; later rows do not change
    them, and with no such row both stay [None]. *)
Theorem ground_state_first_nonempty (py_float : string -> result float)
  (rows : list row) (out : OutputData) :
  (forall e, py_float EmptyString <> Ok e) ->
  output_data py_float rows = Ok out ->
  (energy_ground_state out = None /\ position_ground_state out = None /\
   Forall (fun r => nonempty9 r = false) (data_rows rows))
  \/
  (exists j r s e y,
     nth_error (data_rows rows) j = Some r /\ nonempty9 r = true /\
     field r 8 = Some s /\ py_float s = Ok e /\
     to_float py_float (field r 0) = Ok y /\
     (forall j' r', j' < j -> nth_error (data_rows rows) j' = Some r' ->
                    nonempty9 r' = false) /\
     energy_ground_state out = Some e /\
     position_ground_state out = Some (y / 10)%float).
Proof.
  intros Hempty Hout. apply output_data_inv in Hout.
  destruct (parse_rows_ground_first _ _ _ _ _ Hout eq_refl)
    as [(Ho & Hpo & Hall)|(j & r & s & e & y & Hj & H8 & Hs & Hy & Hbefore & Ho & Hpo & _)].
  - left. split; [exact Ho|split; [exact Hpo|]].
    eapply Forall_impl; [|exact Hall]. intros r Hr. unfold nonempty9. rewrite Hr. reflexivity.
  - right. exists j, r, s, e, y. repeat split; try assumption.
    + unfold nonempty9. rewrite H8.
      destruct (String.eqb s EmptyString) eqn:Es; [|reflexivity].
      apply String.eqb_eq in Es. subst s. exfalso. exact (Hempty e Hs).
    + intros j' r' Hlt Hr'. unfold nonempty9. rewrite (Hbefore j' r' Hlt Hr'). reflexivity.
Qed.

(** C10: after a successful parse the ground-state energy is [None] exactly
    when the ground-state position is, and the position is the
    divided-by-10 position of the row that supplied the energy. *)
Theorem ground_state_coherent (py_float : string -> result float)
  (rows : list row) (out : OutputData) :
  output_data py_float rows = Ok out ->
  (energy_ground_state out = None <-> position_ground_state out = None) /\
  (forall e, energy_ground_state out = Some e ->
     exists j r s y,
       nth_error (data_rows rows) j = Some r /\
       field r 8 = Some s /\ py_float s = Ok e /\
       to_float py_float (field r 0) = Ok y /\
       position_ground_state out = Some (y / 10)%float /\
       nth_error (z out) j = Some (y / 10)%float).
Proof.
  intro Hout. apply output_data_inv in Hout.
  destruct (parse_rows_ground_first _ _ _ _ _ Hout eq_refl)
    as [(Ho & Hpo & _)|(j & r & s & e & y & Hj & H8 & Hs & Hy & _ & Ho & Hpo & Hz)].
  - rewrite Ho, Hpo. split; [tauto|]. intros e He. discriminate.
  - rewrite Ho, Hpo. split; [split; discriminate|].
    intros e' He'. injection He' as <-.
    exists j, r, s, y. repeat split; assumption.
Qed.

(** ** The sweep *)

Lemma move_files_missing names f fs :
  In f names -> ~ In f (app_dir fs) ->
  move_files names fs = (Err FileNotFoundError, snd (move_files names fs)) /\
  saved (snd (move_files names fs)) = saved fs.
Proof.
  revert fs; induction names as [|x names IH]; intros fs Hf Hn; [destruct Hf|].
  simpl. unfold mbind, move_file.
  destruct (in_dec string_dec x (app_dir fs)) as [Hx|Hx].
  - destruct Hf as [->|Hf]; [contradiction|].
    assert (Hn' : ~ In f (app_dir (set_app_dir (remove string_dec x (app_dir fs)) fs))).
    { simpl. intro Hin. apply Hn. eapply in_remove. exact Hin. }
    exact (IH _ Hf Hn').
  - split; reflexivity.
Qed.

Lemma move_files_saved names fs : saved (snd (move_files names fs)) = saved fs.
Proof.
  revert fs; induction names as [|x names IH]; intro fs; simpl; [reflexivity|].
  unfold mbind, move_file.
  destruct (in_dec string_dec x (app_dir fs)); simpl; [rewrite IH|]; reflexivity.
Qed.

Definition keeps_saved {A} (x : M A) : Prop :=
  forall fs, saved (snd (x fs)) = saved fs.

Lemma keeps_saved_bind {A B} (x : M A) (k : A -> M B) :
  keeps_saved x -> (forall a, keeps_saved (k a)) -> keeps_saved (mbind x k).
Proof.
  intros Hx Hk fs. unfold mbind. specialize (Hx fs).
  destruct (x fs) as [[a|e] fs']; simpl in *; [rewrite Hk|]; exact Hx.
Qed.

Lemma keeps_saved_ret {A} (a : A) : keeps_saved (ret a).
Proof. intro fs. reflexivity. Qed.

Lemma keeps_saved_lift {A} (r : result A) : keeps_saved (lift r).
Proof. intro fs. reflexivity. Qed.

Lemma keeps_saved_write_file name : keeps_saved (write_file name).
Proof. intro fs. unfold write_file. simpl. destruct (in_dec _ _ _); reflexivity. Qed.

Lemma keeps_saved_makedirs name : keeps_saved (makedirs name).
Proof. intro fs. unfold makedirs. destruct (in_dec _ _ _); reflexivity. Qed.

Lemma keeps_saved_move_files names : keeps_saved (move_files names).
Proof. intro fs. apply move_files_saved. Qed.

Lemma mbind_ok {A B} (x : M A) (k : A -> M B) fs a fs1 :
  x fs = (Ok a, fs1) -> mbind x k fs = k a fs1.
Proof. intro H. unfold mbind. rewrite H. reflexivity. Qed.

Lemma mbind_err {A B} (x : M A) (k : A -> M B) fs e fs1 :
  x fs = (Err e, fs1) -> mbind x k fs = (Err e, fs1).
Proof. intro H. unfold mbind. rewrite H. reflexivity. Qed.

Lemma write_file_ok name fs : write_file name fs = (Ok tt, snd (write_file name fs)).
Proof. reflexivity. Qed.

Lemma write_file_out_dirs name fs : out_dirs (snd (write_file name fs)) = out_dirs fs.
Proof. unfold write_file. simpl. destruct (in_dec _ _ _); reflexivity. Qed.

Lemma write_file_saved name fs : saved (snd (write_file name fs)) = saved fs.
Proof. apply keeps_saved_write_file. Qed.

Lemma makedirs_ok name fs :
  ~ In name (out_dirs fs) ->
  makedirs name fs = (Ok tt, {| app_dir := app_dir fs; dir_output_exists := true;
                                out_dirs := out_dirs fs ++ [name]; saved := saved fs;
                                logs := logs fs |}).
Proof. intro H. unfold makedirs. destruct (in_dec _ _ _); [contradiction|reflexivity]. Qed.

Section SweepProofs.

Variable format_field : string -> nat -> float -> result string.
Variable py_float : string -> result float.
Variable simulate : string -> list string -> list string.
Variable report : string -> list row.

Lemma keeps_saved_invoke name : keeps_saved (invoke simulate name).
Proof. intro fs. reflexivity. Qed.

Lemma run_single_saved m cs vs :
  keeps_saved (run_single format_field py_float simulate report m cs vs).
Proof.
  unfold run_single.
  repeat first [ apply keeps_saved_move_files | apply keeps_saved_lift
               | apply keeps_saved_write_file | apply keeps_saved_invoke
               | apply keeps_saved_makedirs | apply keeps_saved_bind | intro ].
Qed.

Lemma sweep_saved m points es ps :
  keeps_saved (sweep format_field py_float simulate report m points es ps).
Proof.
  revert es ps; induction points as [|v points IH]; intros es ps; simpl.
  - apply keeps_saved_ret.
  - apply keeps_saved_bind; [apply run_single_saved|intro; apply IH].
Qed.

Lemma sweep_app m l1 l2 es ps fs :
  sweep format_field py_float simulate report m (l1 ++ l2) es ps fs
  = match sweep format_field py_float simulate report m l1 es ps fs with
    | (Ok acc, fs') => sweep format_field py_float simulate report m l2 (fst acc) (snd acc) fs'
    | (Err e, fs') => (Err e, fs')
    end.
Proof.
  revert es ps fs; induction l1 as [|v l1 IH]; intros es ps fs; [reflexivity|].
  simpl. unfold mbind.
  destruct (run_single format_field py_float simulate report m (pm_constants m) v fs)
    as [[out|e] fs']; [apply IH|reflexivity].
Qed.

Lemma run_single_missing_output m cs p n fs f :
  get_dir_name format_field m p = Ok n ->
  ~ In n (out_dirs fs) ->
  In f [n ++ "_Out.txt"; n ++ "_Status.txt"; n ++ "_Wave.txt"]%string ->
  ~ In f (simulate n (app_dir (snd (write_file (n ++ ".txt")%string fs)))) ->
  exists fs', run_single format_field py_float simulate report m cs p fs
              = (Err FileNotFoundError, fs') /\ saved fs' = saved fs.
Proof.
  intros Hn Hdir Hf Hmiss. unfold run_single.
  erewrite mbind_ok by (unfold lift; rewrite Hn; reflexivity).
  erewrite mbind_ok by apply write_file_ok.
  erewrite mbind_ok by reflexivity.
  erewrite mbind_ok
    by (apply makedirs_ok; unfold set_app_dir; cbn [out_dirs];
        rewrite write_file_out_dirs; exact Hdir).
  match goal with |- context [mbind (move_files ?l) _ ?s] =>
    destruct (move_files_missing l f s) as [Hm Hs];
      [right; exact Hf|exact Hmiss|] end.
  erewrite mbind_err by exact Hm.
  eexists; split; [reflexivity|].
  rewrite Hs. simpl. apply write_file_saved.
Qed.

End SweepProofs.

(** C9 (amended): when the report, status or wave file of a sweep point is
    missing after its invocation, the first [shutil.move] that finds its
    source missing raises FileNotFoundError, which aborts [run]: no array is
    saved, neither the per-variable arrays nor the two ground-state arrays. *)
Theorem run_missing_output_aborts
  (format_field : string -> nat -> float -> result string)
  (py_float : string -> result float)
  (simulate : string -> list string -> list string)
  (report : string -> list row)
  (m : ParamsManager) (fs : FileSystem) (k : nat) (p : dict float) (n : string)
  (acc : list (option float) * list (option float)) (fs_k : FileSystem) (f : string) :
  nth_error (generate_variables m) k = Some p ->
  sweep format_field py_float simulate report m (firstn k (generate_variables m))
        [] [] fs = (Ok acc, fs_k) ->
  get_dir_name format_field m p = Ok n ->
  ~ In n (out_dirs fs_k) ->
  In f [n ++ "_Out.txt"; n ++ "_Status.txt"; n ++ "_Wave.txt"]%string ->
  ~ In f (simulate n (app_dir (snd (write_file (n ++ ".txt")%string fs_k)))) ->
  fst (run format_field py_float simulate report m fs) = Err FileNotFoundError /\
  saved (snd (run format_field py_float simulate report m fs)) = saved fs.
Proof.
  intros Hk Hpre Hn Hdir Hf Hmiss.
  assert (Hsplit : generate_variables m
                   = firstn k (generate_variables m) ++ p :: skipn (S k) (generate_variables m)).
  { rewrite <- (firstn_skipn k (generate_variables m)) at 1. f_equal.
    clear -Hk. revert k Hk. induction (generate_variables m) as [|x l IH];
      intros [|k] Hk; simpl in *; try discriminate.
    - injection Hk as ->. reflexivity.
    - apply IH, Hk. }
  destruct (run_single_missing_output format_field py_float simulate report
              m (pm_constants m) p n fs_k f Hn Hdir Hf Hmiss) as [fs' [Hrun Hsaved]].
  pose proof (sweep_saved format_field py_float simulate report m
                (firstn k (generate_variables m)) [] [] fs) as Hsk.
  rewrite Hpre in Hsk. simpl in Hsk.
  assert (Hsw : sweep format_field py_float simulate report m (generate_variables m) [] [] fs
                = (Err FileNotFoundError, fs')).
  { rewrite Hsplit at 1. rewrite sweep_app, Hpre. simpl.
    apply mbind_err. exact Hrun. }
  unfold run. rewrite (mbind_err _ _ _ _ _ Hsw). simpl.
  split; [reflexivity|congruence].
Qed.

(** ** numpy.arange *)

Lemma positive_float_shape (x : float) :
  (0 <? x)%float = true ->
  (exists m e, Prim2SF x = S754_finite false m e) \/ Prim2SF x = S754_infinity false.
Proof.
  rewrite FloatAxioms.ltb_spec.
  change (Prim2SF 0%float) with (S754_zero false).
  unfold SFltb, SFcompare.
  destruct (Prim2SF x) as [s|[]| |[] m e]; simpl; try discriminate.
  - right. reflexivity.
  - left. exists m, e. reflexivity.
Qed.

Lemma positive_float_neq_zero (x : float) :
  (0 <? x)%float = true -> (x =? 0)%float = false.
Proof.
  intro H. rewrite FloatAxioms.eqb_spec.
  change (Prim2SF 0%float) with (S754_zero false).
  destruct (positive_float_shape x H) as [(m & e & ->)| ->]; reflexivity.
Qed.

Lemma positive_float_not_nan (x : float) :
  (0 <? x)%float = true -> PrimFloat.is_nan x = false.
Proof.
  intro H. unfold PrimFloat.is_nan. rewrite FloatAxioms.eqb_spec.
  destruct (positive_float_shape x H) as [(m & e & ->)| ->]; [|reflexivity].
  unfold SFeqb, SFcompare. rewrite Z.compare_refl.
  rewrite (Pos.compare_cont_refl m Eq). reflexivity.
Qed.

Lemma spec_ceil_positive m e c :
  spec_ceil (S754_finite false m e) = Some c -> (1 <= c)%Z.
Proof.
  unfold spec_ceil. destruct (0 <=? e)%Z eqn:He; intro H; injection H as <-;
    cbv beta iota zeta.
  - apply Z.leb_le in He.
    assert (1 <= 2 ^ e)%Z by (pose proof (Z.pow_pos_nonneg 2 e ltac:(lia) He); lia).
    pose proof (Pos2Z.is_pos m).
    change (1 <= Z.pos m * 2 ^ e)%Z.
    remember (2 ^ e)%Z as t. nia.
  - assert (Hd : (0 < 2 ^ (- e))%Z) by (apply Z.pow_pos_nonneg; lia).
    apply Z.div_le_lower_bound; [exact Hd|]. pose proof (Pos2Z.is_pos m). change (2 ^ (- e) * 1 <= Z.pos m + 2 ^ (- e) - 1)%Z. lia.
Qed.

Lemma div_positive_shape (x y : float) :
  (0 <? x)%float = true -> (0 <? y)%float = true ->
  Prim2SF (x / y) = S754_zero false \/
  (exists m e, Prim2SF (x / y) = S754_finite false m e) \/
  Prim2SF (x / y) = S754_infinity false \/
  Prim2SF (x / y) = S754_nan.
Proof.
  intros Hx Hy. rewrite FloatAxioms.div_spec. unfold SF64div, SFdiv.
  destruct (positive_float_shape x Hx) as [(mx & ex & ->)| ->];
    destruct (positive_float_shape y Hy) as [(my & ey & ->)| ->]; simpl.
  - destruct (SFdiv_core_binary prec emax (Z.pos mx) ex (Z.pos my) ey) as [[mz ez] lz].
    unfold binary_round_aux.
    destruct (shr_fexp prec emax mz ez lz) as [mrs' e'].
    destruct (shr_fexp prec emax _ e' loc_Exact) as [mrs'' e''].
    destruct (shr_m mrs'') as [|p|p]; [left; reflexivity| |right; right; right; reflexivity].
    destruct (e'' <=? emax - prec)%Z; [right; left; exists p, e''; reflexivity|].
    right; right; left; reflexivity.
  - left. reflexivity.
  - right; right; left. reflexivity.
  - right; right; right. reflexivity.
Qed.

Lemma positive_zero_sign (q : float) :
  Prim2SF q = S754_zero false -> PrimFloat.get_sign q = false.
Proof.
  intro Hq. unfold PrimFloat.get_sign, PrimFloat.is_zero.
  rewrite FloatAxioms.eqb_spec, Hq.
  change (Prim2SF zero) with (S754_zero false). cbn -[PrimFloat.div PrimFloat.ltb].
  rewrite FloatAxioms.ltb_spec, FloatAxioms.div_spec, Hq. reflexivity.
Qed.

Lemma finite_not_nan (q : float) s m e :
  Prim2SF q = S754_finite s m e -> PrimFloat.is_nan q = false.
Proof.
  intro Hq. unfold PrimFloat.is_nan. rewrite FloatAxioms.eqb_spec, Hq.
  unfold SFeqb, SFcompare. rewrite Z.compare_refl.
  rewrite (Pos.compare_cont_refl m Eq). destruct s; reflexivity.
Qed.

Lemma arange_elems_spec (start next : float) (n : nat) :
  List.length (map (arange_elem start next) (seq 0 n)) = n /\
  forall i, i < n -> nth_error (map (arange_elem start next) (seq 0 n)) i
                     = Some (arange_elem start next i).
Proof.
  rewrite length_map, length_seq. split; [reflexivity|].
  intros i Hi. rewrite nth_error_map, nth_error_seq.
  destruct (Nat.ltb_spec i n); [|lia]. reflexivity.
Qed.

Lemma arange_calc_ok (start stop step : float) len l :
  calc_length start stop step = Ok len -> arange start stop step = Ok l ->
  ((len <= 0)%Z /\ l = []) \/
  ((0 < len)%Z /\ (8 * len <= npy_max_intp)%Z /\ List.length l = Z.to_nat len /\
   forall i, i < List.length l ->
             nth_error l i = Some (arange_elem start (start + step) i)).
Proof.
  intros Hc Ha. unfold arange in Ha. rewrite Hc in Ha. cbv beta iota in Ha.
  destruct (len <=? 0)%Z eqn:E1.
  - left. apply Z.leb_le in E1. injection Ha as <-. split; [exact E1|reflexivity].
  - right. apply Z.leb_gt in E1.
    destruct (npy_max_intp <? 8 * len)%Z eqn:E2; [discriminate|].
    apply Z.ltb_ge in E2. injection Ha as <-.
    destruct (arange_elems_spec start (start + step) (Z.to_nat len)) as [L N].
    rewrite L. split; [exact E1|]. split; [exact E2|]. split; [reflexivity|exact N].
Qed.

Lemma arange_calc_err (start stop step : float) e l :
  calc_length start stop step = Err e -> arange start stop step <> Ok l.
Proof. intros Hc Ha. unfold arange in Ha. rewrite Hc in Ha. destruct e; discriminate. Qed.

Lemma calc_length_positive (start stop step : float) :
  (0 <? step)%float = true -> (0 <? stop - start)%float = true ->
  (exists e, calc_length start stop step = Err e) \/
  exists c, spec_ceil (Prim2SF ((stop - start) / step)) = Some c /\ (c <= 2 ^ 63)%Z /\
            calc_length start stop step = Ok (npy_intp_cast (Z.max 1 c)).
Proof.
  intros Hstep Hdiff. unfold calc_length.
  rewrite (positive_float_neq_zero _ Hstep), (positive_float_neq_zero _ Hdiff).
  cbv zeta.
  destruct (div_positive_shape _ _ Hdiff Hstep)
    as [Hq|[(mq & eq & Hq)|[Hq|Hq]]].
  - right. exists 0%Z. rewrite FloatAxioms.eqb_spec, Hq.
    change (Prim2SF 0%float) with (S754_zero false).
    cbn [SFeqb SFcompare andb negb]. rewrite (positive_zero_sign _ Hq).
    split; [reflexivity|]. split; [discriminate|reflexivity].
  - rewrite FloatAxioms.eqb_spec, Hq. change (Prim2SF 0%float) with (S754_zero false).
    cbn [SFeqb SFcompare andb negb]. unfold arange_safe_ceil_to_intp.
    rewrite (finite_not_nan _ _ _ _ Hq), Hq.
    destruct (spec_ceil (S754_finite false mq eq)) as [c|] eqn:Hc;
      [|left; eexists; reflexivity].
    destruct (andb (- 2 ^ 63 <=? c)%Z (c <=? 2 ^ 63)%Z) eqn:Hb;
      [|left; eexists; reflexivity].
    right. exists c. apply andb_prop in Hb as [_ Hb]. apply Z.leb_le in Hb.
    pose proof (spec_ceil_positive _ _ _ Hc).
    rewrite Z.max_r by lia. split; [reflexivity|]. split; [exact Hb|reflexivity].
  - left. rewrite FloatAxioms.eqb_spec, Hq. change (Prim2SF 0%float) with (S754_zero false).
    cbn [SFeqb SFcompare andb negb]. unfold arange_safe_ceil_to_intp, PrimFloat.is_nan.
    rewrite FloatAxioms.eqb_spec, Hq. simpl. eexists. reflexivity.
  - left. rewrite FloatAxioms.eqb_spec, Hq. cbn [SFeqb SFcompare andb negb].
    unfold arange_safe_ceil_to_intp, PrimFloat.is_nan.
    rewrite FloatAxioms.eqb_spec, Hq. simpl. eexists. reflexivity.
Qed.

Lemma arange_positive (start stop step : float) l :
  (0 <? step)%float = true -> (0 <? stop - start)%float = true ->
  arange start stop step = Ok l ->
  exists c, spec_ceil (Prim2SF ((stop - start) / step)) = Some c /\
    ((c = 2 ^ 63 /\ l = [])%Z \/
     ((8 * Z.max 1 c <= npy_max_intp)%Z /\
      List.length l = Z.to_nat (Z.max 1 c) /\
      forall i, i < List.length l ->
                nth_error l i = Some (arange_elem start (start + step) i))).
Proof.
  intros Hstep Hdiff Ha.
  destruct (calc_length_positive _ _ _ Hstep Hdiff) as [[e He]|(c & Hc & Hle & Hl)].
  - exfalso. exact (arange_calc_err _ _ _ _ _ He Ha).
  - exists c. split; [exact Hc|].
    destruct (arange_calc_ok _ _ _ _ _ Hl Ha) as [[Hn ->]|(Hp & H8 & L & N)];
      unfold npy_intp_cast in *; change (2 ^ 63)%Z with 9223372036854775808%Z in *;
      destruct (Z.max 1 c =? 9223372036854775808)%Z eqn:E;
      apply Z.eqb_eq in E || apply Z.eqb_neq in E.
    + left. split; [lia|reflexivity].
    + lia.
    + lia.
    + right. split; [exact H8|]. split; [exact L|exact N].
Qed.

(** C6 (amended): for a range spec with [step > 0] and a positive
    double-precision difference [end - start] (as when [start < end]), when
    [np.arange] in [ParamsManager.__init__] succeeds, the list it
    materializes has [max(1, ceil(q))] elements, [q] the double-precision
    quotient [(end - start) / step], and [8 * max(1, ceil(q))] bytes fit in
    [NPY_MAX_INTP]; the one exception is [ceil(q) = 2^63], which numpy's cast
    to [npy_intp] turns into a negative length, giving an empty list. The
    i-th element is [start], [start + step], then
    [start + i * ((start + step) - start)] in double precision. Nothing keeps
    these values below [end]. *)
Theorem arange_materialized (constants : list Constant) (v : Variable_)
  (a : Array) (m : ParamsManager) :
  var_value v = VArray a ->
  (0 <? step a)%float = true ->
  (0 <? end_ a - start a)%float = true ->
  init constants [v] = Ok m ->
  exists l c,
    pm_variables m = [(var_name v, l)] /\
    spec_ceil (Prim2SF ((end_ a - start a) / step a)) = Some c /\
    ((c = 2 ^ 63 /\ l = [])%Z \/
     ((8 * Z.max 1 c <= npy_max_intp)%Z /\
      List.length l = Z.to_nat (Z.max 1 c) /\
      forall i, i < List.length l ->
                nth_error l i = Some (arange_elem (start a) (start a + step a) i))).
Proof.
  intros Hv Hs Hd Hinit. destruct (init_inv _ _ _ Hinit) as [Hvars _].
  simpl in Hvars. rewrite Hv in Hvars.
  destruct (arange (start a) (end_ a) (step a)) as [l|e] eqn:Ha;
    simpl in Hvars; [|discriminate].
  injection Hvars as Hvars.
  destruct (arange_positive _ _ _ l Hs Hd Ha) as (c & Hc & H).
  exists l, c. split; [symmetry; exact Hvars|]. split; [exact Hc|exact H].
Qed.

(** C5 (code bug): [Variable.format] defaults to [None], yet
    [_get_dir_name] calls [variable_formats[k].format(v)] unconditionally:
    for a variable declared without a format, naming its point raises
    AttributeError, whatever the formatting of replacement fields. *)
Theorem none_format_raises_attribute_error
  (format_field : string -> nat -> float -> result string) :
  init [] [V_noformat]
  = Ok {| pm_constants := []; pm_variables := [("V"%string, [0%float])];
          pm_variable_formats := [("V"%string, None)] |} /\
  map (get_dir_name format_field
         {| pm_constants := []; pm_variables := [("V"%string, [0%float])];
            pm_variable_formats := [("V"%string, None)] |})
      (generate_variables
         {| pm_constants := []; pm_variables := [("V"%string, [0%float])];
            pm_variable_formats := [("V"%string, None)] |})
  = [Err AttributeError].
Proof. split; reflexivity. Qed.

(** ** Instances of the claims on the sample inputs *)

Lemma generate_variables_count_witness :
  exists m, init [T_300] [] = Ok m /\
    List.length (generate_variables m) = prod (shape_variables m) /\
    (@nil Variable_ = [] -> generate_variables m = [pm_constants m]).
Proof.
  eexists. split; [reflexivity|].
  apply (generate_variables_count [T_300] []). reflexivity.
Defined.

Lemma reshape_generate_roundtrip_witness :
  exists m, init [T_300] [V_brace; W_brace] = Ok m /\
    exists a,
      reshape (map (fun d : dict float => d) (generate_variables m)) (shape_variables m) = Ok a /\
      nd_get a [1; 2]
      = Ok (dict_of_pairs (combine (map fst (pm_variables m))
                                   (pick (map snd (pm_variables m)) [1; 2]))).
Proof.
  eexists. split; [reflexivity|].
  apply (@reshape_generate_roundtrip (dict float) (fun d => d) [T_300] [V_brace; W_brace]);
    [reflexivity|discriminate|reflexivity].
Defined.

Lemma init_keeps_colliding_names_witness :
  exists m,
    init [T_300] [T_variable] = Ok m /\
    forall k,
      dict_get (pm_constants m) k = last_const_value k [T_300] /\
      dict_get (pm_variables m) k = last_var_list k [T_variable].
Proof. apply (init_keeps_colliding_names [T_300] [T_variable]). reflexivity. Defined.

(** C3 fails: a constant [T] and a variable [T] are accepted together. *)
Lemma init_accepts_colliding_name :
  init [T_300] [T_variable]
  = Ok {| pm_constants := [("T"%string, 300%float)];
          pm_variables := [("T"%string, [1%float])];
          pm_variable_formats := [("T"%string, Some "{:.1f}"%string)] |}.
Proof. reflexivity. Qed.

Lemma get_dir_name_variable_segments_witness :
  exists m, init [T_300] [V_brace] = Ok m /\
    get_dir_name fixed_format_field m [("V"%string, 0.5%float)] = Ok "V(0.5)"%string /\
    (map fst [("V"%string, 0.5%float)] = map fst (pm_variables m) /\
     get_dir_name fixed_format_field m [("V"%string, 0.5%float)]
     = (segs <- map_result
                 (fun kv => segment fixed_format_field (declared_format (fst kv) [V_brace])
                                    (fst kv) (snd kv)) [("V"%string, 0.5%float)] ;;
        Ok (String.concat "_" segs)) /\
     (forall fmt v, has_no_braces fmt = true -> str_format fixed_format_field fmt v = Ok fmt)).
Proof.
  eexists. split; [reflexivity|]. split; [vm_compute; reflexivity|].
  apply (get_dir_name_variable_segments fixed_format_field [T_300] [V_brace]).
  - reflexivity.
  - discriminate.
  - repeat constructor. simpl. discriminate.
  - simpl. right. left. reflexivity.
Defined.

(** C4 fails: with the printf-style format ["%.1f"], [str.format] copies the
    format, and both points of [V = [0.0, 0.5]] are named [V(%.1f)]. *)
Lemma printf_format_copied_literally :
  init [T_300] [V_sweep]
  = Ok {| pm_constants := [("T"%string, 300%float)];
          pm_variables := [("V"%string, [0%float; 0.5%float])];
          pm_variable_formats := [("V"%string, Some "%.1f"%string)] |} /\
  map (get_dir_name fixed_format_field
         {| pm_constants := [("T"%string, 300%float)];
            pm_variables := [("V"%string, [0%float; 0.5%float])];
            pm_variable_formats := [("V"%string, Some "%.1f"%string)] |})
      (generate_variables
         {| pm_constants := [("T"%string, 300%float)];
            pm_variables := [("V"%string, [0%float; 0.5%float])];
            pm_variable_formats := [("V"%string, Some "%.1f"%string)] |})
  = [Ok "V(%.1f)"%string; Ok "V(%.1f)"%string].
Proof. split; vm_compute; reflexivity. Qed.

Lemma arange_materialized_witness :
  exists m, init [] [x_quarter] = Ok m /\
    exists l c,
      pm_variables m = [(var_name x_quarter, l)] /\
      spec_ceil (Prim2SF ((1 - 0) / 0.25)%float) = Some c /\
      ((c = 2 ^ 63 /\ l = [])%Z \/
       ((8 * Z.max 1 c <= npy_max_intp)%Z /\
        List.length l = Z.to_nat (Z.max 1 c) /\
        forall i, i < List.length l ->
                  nth_error l i = Some (arange_elem 0%float (0 + 0.25)%float i))).
Proof.
  eexists. split; [vm_compute; reflexivity|].
  apply (arange_materialized [] x_quarter
           {| start := 0%float; end_ := 1%float; step := 0.25%float |});
    vm_compute; reflexivity.
Defined.

(** C6 fails: [Array(start=1.0, end=1.3, step=0.1)] materializes four
    values, the last one above [end] (numpy's documented overshoot). *)
Lemma arange_reaches_end :
  init [] [V_range]
  = Ok {| pm_constants := [];
          pm_variables := [("V"%string, [1%float; 1.1%float; 1.2000000000000002%float;
                                         1.3000000000000003%float])];
          pm_variable_formats := [("V"%string, Some "{:.1f}"%string)] |} /\
  (1.3 <=? 1.3000000000000003)%float = true /\
  (1.3 <? 1.3000000000000003)%float = true.
Proof. split; [|split]; vm_compute; reflexivity. Qed.

Lemma ground_state_first_nonempty_witness :
  exists out, output_data int_float sample_report = Ok out /\
    energy_ground_state out = Some 42%float /\
    position_ground_state out = Some 2%float /\
    ((energy_ground_state out = None /\ position_ground_state out = None /\
      Forall (fun r => nonempty9 r = false) (data_rows sample_report))
     \/
     (exists j r s e y,
        nth_error (data_rows sample_report) j = Some r /\ nonempty9 r = true /\
        field r 8 = Some s /\ int_float s = Ok e /\
        to_float int_float (field r 0) = Ok y /\
        (forall j' r', j' < j -> nth_error (data_rows sample_report) j' = Some r' ->
                       nonempty9 r' = false) /\
        energy_ground_state out = Some e /\
        position_ground_state out = Some (y / 10)%float)).
Proof.
  eexists. split; [vm_compute; reflexivity|].
  split; [reflexivity|]. split; [reflexivity|].
  apply (ground_state_first_nonempty int_float sample_report).
  - intros e H. discriminate H.
  - vm_compute. reflexivity.
Defined.

Lemma output_data_series_witness :
  Forall (well_formed_row int_float) (data_rows sample_report) /\
  exists out,
    output_data int_float sample_report = Ok out /\
    List.length (z out) = List.length (data_rows sample_report) /\
    List.length (energy_conduction out) = List.length (data_rows sample_report) /\
    List.length (energy_valence out) = List.length (data_rows sample_report) /\
    List.length (electric_field out) = List.length (data_rows sample_report) /\
    List.length (energy_fermi out) = List.length (data_rows sample_report) /\
    List.length (density_electron out) = List.length (data_rows sample_report) /\
    List.length (density_hole out) = List.length (data_rows sample_report) /\
    (forall j r, nth_error (data_rows sample_report) j = Some r ->
       exists y, to_float int_float (field r 0) = Ok y /\
                 nth_error (z out) j = Some (y / 10)%float).
Proof.
  assert (Hwf : Forall (well_formed_row int_float) (data_rows sample_report)).
  { simpl. repeat apply Forall_cons; try apply Forall_nil; split;
      try (intros k Hk; do 7 (destruct k as [|k]; [eexists; reflexivity|]); lia);
      [left; reflexivity| |]; right; eexists; reflexivity. }
  split; [exact Hwf|].
  apply (output_data_series int_float sample_report Hwf).
Defined.

Lemma run_missing_output_aborts_witness :
  exists m, init [] [V_brace] = Ok m /\
    fst (run fixed_format_field int_float silent_simulator empty_report m fresh_fs)
    = Err FileNotFoundError /\
    saved (snd (run fixed_format_field int_float silent_simulator empty_report m fresh_fs))
    = saved fresh_fs.
Proof.
  eexists. split; [reflexivity|].
  apply (run_missing_output_aborts fixed_format_field int_float silent_simulator
           empty_report _ fresh_fs 0 [("V"%string, 0%float)] "V(0.0)"%string
           ([], []) fresh_fs "V(0.0)_Out.txt"%string).
  - reflexivity.
  - reflexivity.
  - vm_compute. reflexivity.
  - simpl. tauto.
  - simpl. left. reflexivity.
  - simpl. intros [H|[H|H]]; [discriminate H|discriminate H|exact H].
Defined.

(** C9 fails on its exception: the missing report surfaces as the
    FileNotFoundError of [shutil.move], after the point's directory was made. *)
Lemma run_missing_output_raises_file_not_found :
  run fixed_format_field int_float silent_simulator empty_report
      {| pm_constants := []; pm_variables := [("V"%string, [0%float; 0.5%float])];
         pm_variable_formats := [("V"%string, Some "{:.1f}"%string)] |} fresh_fs
  = (Err FileNotFoundError,
     {| app_dir := ["1D Poisson"%string]; dir_output_exists := true;
        out_dirs := ["V(0.0)"%string]; saved := []; logs := [] |}).
Proof. vm_compute. reflexivity. Qed.

Lemma ground_state_coherent_witness :
  exists out, output_data int_float sample_report = Ok out /\
    (energy_ground_state out = None <-> position_ground_state out = None) /\
    (forall e, energy_ground_state out = Some e ->
       exists j r s y,
         nth_error (data_rows sample_report) j = Some r /\
         field r 8 = Some s /\ int_float s = Ok e /\
         to_float int_float (field r 0) = Ok y /\
         position_ground_state out = Some (y / 10)%float /\
         nth_error (z out) j = Some (y / 10)%float).
Proof.
  eexists. split; [vm_compute; reflexivity|].
  apply (ground_state_coherent int_float sample_report). vm_compute. reflexivity.
Defined.

(** * Further properties of the code *)

(** ** The sweep when it succeeds *)

Lemma move_files_out_dirs names fs : out_dirs (snd (move_files names fs)) = out_dirs fs.
Proof.
  revert fs; induction names as [|x names IH]; intro fs; simpl; [reflexivity|].
  unfold mbind, move_file.
  destruct (in_dec string_dec x (app_dir fs)); simpl; [rewrite IH|]; reflexivity.
Qed.

Lemma map_result_length {A B} (f : A -> result B) xs ys :
  map_result f xs = Ok ys -> List.length ys = List.length xs.
Proof.
  revert ys; induction xs as [|x xs IH]; intros ys H; simpl in H.
  - injection H as <-. reflexivity.
  - destruct (f x) as [y|e]; simpl in H; [|discriminate].
    destruct (map_result f xs) as [ys'|e] eqn:E; simpl in H; [|discriminate].
    injection H as <-. simpl. f_equal. apply IH. reflexivity.
Qed.

Lemma move_files_dir_output names fs :
  dir_output_exists (snd (move_files names fs)) = dir_output_exists fs.
Proof.
  revert fs; induction names as [|x names IH]; intro fs; simpl; [reflexivity|].
  unfold mbind, move_file.
  destruct (in_dec string_dec x (app_dir fs)); simpl; [rewrite IH|]; reflexivity.
Qed.

Lemma save_variables_ok (vars : dict (list float)) fs :
  dir_output_exists fs = true ->
  save_variables vars fs
  = (Ok tt, {| app_dir := app_dir fs; dir_output_exists := true; out_dirs := out_dirs fs;
               saved := saved fs ++ map (fun kv => (fst kv ++ ".npy")%string) vars;
               logs := logs fs |}).
Proof.
  revert fs; induction vars as [|[k l] vars IH]; intros fs Hd; simpl.
  - destruct fs; simpl in *. subst. rewrite app_nil_r. reflexivity.
  - unfold mbind, np_save. rewrite Hd. rewrite IH by reflexivity. simpl.
    rewrite <- app_assoc. reflexivity.
Qed.

Lemma save_variables_missing (vars : dict (list float)) fs :
  dir_output_exists fs = false ->
  save_variables vars fs = (Err FileNotFoundError, fs) \/
  (vars = [] /\ save_variables vars fs = (Ok tt, fs)).
Proof.
  intro Hd. destruct vars as [|[k l] vars]; [right; split; reflexivity|].
  left. simpl. unfold mbind, np_save. rewrite Hd. reflexivity.
Qed.

Section SweepOk.

Variable format_field : string -> nat -> float -> result string.
Variable py_float : string -> result float.
Variable simulate : string -> list string -> list string.
Variable report : string -> list row.

Lemma run_single_ok m cs p fs out fs' :
  run_single format_field py_float simulate report m cs p fs = (Ok out, fs') ->
  exists n, get_dir_name format_field m p = Ok n /\ ~ In n (out_dirs fs) /\
            output_data py_float (report n) = Ok out /\
            out_dirs fs' = out_dirs fs ++ [n] /\ saved fs' = saved fs /\
            dir_output_exists fs' = true.
Proof.
  unfold run_single. intro H.
  destruct (get_dir_name format_field m p) as [n|e] eqn:Hn;
    [|unfold mbind, lift in H; simpl in H; discriminate].
  rewrite (mbind_ok _ _ _ _ _ (eq_refl : lift (Ok n) fs = (Ok n, fs))) in H.
  rewrite (mbind_ok _ _ _ _ _ (write_file_ok _ _)) in H.
  set (fs1 := snd (write_file (n ++ ".txt")%string fs)) in H.
  rewrite (mbind_ok _ _ _ _ _ (eq_refl : invoke simulate n fs1
            = (Ok tt, set_app_dir (simulate n (app_dir fs1)) fs1))) in H.
  set (fs2 := set_app_dir (simulate n (app_dir fs1)) fs1) in H.
  assert (Hd2 : out_dirs fs2 = out_dirs fs) by apply write_file_out_dirs.
  assert (Hs2 : saved fs2 = saved fs) by apply write_file_saved.
  destruct (in_dec string_dec n (out_dirs fs2)) as [Hin|Hfresh].
  - unfold mbind at 1, makedirs in H.
    destruct (in_dec string_dec n (out_dirs fs2)); [discriminate|contradiction].
  - rewrite (mbind_ok _ _ _ _ _ (makedirs_ok _ _ Hfresh)) in H.
    match type of H with
    | mbind (move_files ?l) _ ?s = _ =>
        pose proof (move_files_out_dirs l s) as Hd3;
        pose proof (move_files_saved l s) as Hs3;
        pose proof (move_files_dir_output l s) as Hx3;
        destruct (move_files l s) as [[u|e] fs3] eqn:Hm
    end.
    + rewrite (mbind_ok _ _ _ _ _ Hm) in H. unfold lift in H.
      destruct (output_data py_float (report n)) as [o|e] eqn:Ho;
        [injection H as <- <-|discriminate H].
      exists n. cbn [snd out_dirs saved dir_output_exists] in Hd3, Hs3, Hx3.
      split; [first [reflexivity|assumption]|]. split; [rewrite <- Hd2; exact Hfresh|].
      split; [first [reflexivity|assumption]|]. split; [rewrite Hd3, Hd2; reflexivity|].
      split; [rewrite Hs3, Hs2; reflexivity|exact Hx3].
    + rewrite (mbind_err _ _ _ _ _ Hm) in H. discriminate.
Qed.

Lemma sweep_ok m points es ps fs acc fs' :
  sweep format_field py_float simulate report m points es ps fs = (Ok acc, fs') ->
  exists names outs,
    map_result (get_dir_name format_field m) points = Ok names /\
    map_result (fun n => output_data py_float (report n)) names = Ok outs /\
    acc = (es ++ map energy_ground_state outs, ps ++ map position_ground_state outs) /\
    NoDup names /\ (forall n, In n names -> ~ In n (out_dirs fs)) /\
    out_dirs fs' = out_dirs fs ++ names /\ saved fs' = saved fs /\
    ((points = [] /\ fs' = fs) \/ dir_output_exists fs' = true).
Proof.
  revert es ps fs; induction points as [|p points IH]; intros es ps fs H; simpl in H.
  - injection H as <- <-. exists [], []. simpl. rewrite !app_nil_r.
    repeat split; try reflexivity; [constructor|intros n []|left; split; reflexivity].
  - unfold mbind in H.
    destruct (run_single format_field py_float simulate report m (pm_constants m) p fs)
      as [[out|e] fs1] eqn:Hr; [|discriminate].
    destruct (run_single_ok _ _ _ _ _ _ Hr) as (n & Hn & Hfresh & Hout & Hd1 & Hs1 & Hx1).
    destruct (IH _ _ _ H)
      as (names & outs & Hnames & Houts & Hacc & Hnd & Hfr & Hd & Hs & Hx).
    exists (n :: names), (out :: outs). simpl.
    rewrite Hn, Hnames. simpl. rewrite Hout, Houts. simpl.
    split; [reflexivity|]. split; [reflexivity|].
    split; [rewrite Hacc, <- !app_assoc; reflexivity|].
    rewrite Hd1 in Hfr, Hd.
    split; [|split; [|split; [|split]]].
    + constructor; [|exact Hnd]. intro Hin. apply (Hfr n Hin).
      apply in_or_app. right. left. reflexivity.
    + intros n' [<-|Hin]; [exact Hfresh|]. intro Hin'. apply (Hfr n' Hin).
      apply in_or_app. left. exact Hin'.
    + rewrite Hd, <- app_assoc. reflexivity.
    + congruence.
    + right. destruct Hx as [[_ ->]|Hx]; assumption.
Qed.

Lemma run_after_sweep m fs acc fs' :
  sweep format_field py_float simulate report m (generate_variables m) [] [] fs
  = (Ok acc, fs') ->
  run format_field py_float simulate report m fs
  = if dir_output_exists fs'
    then (Ok tt, {| app_dir := app_dir fs'; dir_output_exists := true;
                    out_dirs := out_dirs fs';
                    saved := saved fs
                             ++ map (fun kv => (fst kv ++ ".npy")%string) (pm_variables m)
                             ++ ["energies_ground_states.npy";
                                 "positions_ground_states.npy"]%string;
                    logs := logs fs' |})
    else (Err FileNotFoundError, fs').
Proof.
  intro H.
  destruct (sweep_ok _ _ _ _ _ _ _ H) as (names & outs & Hn & Ho & Hacc & _ & _ & _ & Hs & _).
  pose proof (map_result_length _ _ _ Hn) as Ln.
  pose proof (map_result_length _ _ _ Ho) as Lo.
  unfold run. rewrite (mbind_ok _ _ _ _ _ H).
  subst acc. simpl fst. simpl snd.
  assert (Hlen : forall (f : OutputData -> option float),
             Nat.eqb (List.length (map f outs)) (prod (shape_variables m)) = true).
  { intro f. rewrite length_map, Lo, Ln, generate_variables_length. apply Nat.eqb_refl. }
  destruct (dir_output_exists fs') eqn:Ed.
  - rewrite (mbind_ok _ _ _ _ _ (save_variables_ok _ _ Ed)).
    unfold mbind, lift, reshape at 1. rewrite Hlen.
    unfold reshape. rewrite Hlen. unfold np_save. simpl.
    rewrite Hs, <- !app_assoc. reflexivity.
  - destruct (save_variables_missing (pm_variables m) fs' Ed) as [He|[_ He]].
    + rewrite (mbind_err _ _ _ _ _ He). reflexivity.
    + rewrite (mbind_ok _ _ _ _ _ He).
      unfold mbind, lift, reshape at 1. rewrite Hlen.
      unfold reshape. rewrite Hlen. unfold np_save. rewrite Ed. reflexivity.
Qed.

Lemma sweep_dir_output m fs acc fs' :
  sweep format_field py_float simulate report m (generate_variables m) [] [] fs
  = (Ok acc, fs') ->
  generate_variables m <> [] -> dir_output_exists fs' = true.
Proof.
  intros H Hne.
  destruct (sweep_ok _ _ _ _ _ _ _ H) as (_ & _ & _ & _ & _ & _ & _ & _ & _ & [[E _]|Hx]);
    [contradiction|exact Hx].
Qed.

End SweepOk.

Lemma product_rec_empty_pool {A} (pools : list (list A)) :
  In [] pools -> product_rec pools = [].
Proof.
  induction pools as [|p ps IH]; intro H; [destruct H|].
  destruct H as [->|H]; simpl; [reflexivity|].
  rewrite (IH H). induction p as [|y p IHp]; simpl; [reflexivity|exact IHp].
Qed.

Lemma generate_variables_empty_pool m k :
  In (k, []) (pm_variables m) -> generate_variables m = [].
Proof.
  intro H. unfold generate_variables.
  destruct (pm_variables m) as [|kv vars] eqn:E; [destruct H|].
  rewrite itertools_product_rec, product_rec_empty_pool; [reflexivity|].
  change [] with (snd (k, @nil float)). apply in_map. exact H.
Qed.

(** X1: a variable whose value list is empty leaves the sweep with no
    point: [run] invokes no simulation and creates no directory. If
    [dir_output] exists it saves every variable's array and the two (empty)
    ground-state arrays; if it does not, nothing has created it, and the
    first [np.save] raises FileNotFoundError. *)
Theorem run_empty_variable_simulates_nothing
  (format_field : string -> nat -> float -> result string)
  (py_float : string -> result float)
  (simulate : string -> list string -> list string)
  (report : string -> list row) (m : ParamsManager) (k : string) (fs : FileSystem) :
  In (k, []) (pm_variables m) ->
  generate_variables m = [] /\
  run format_field py_float simulate report m fs
  = if dir_output_exists fs
    then (Ok tt, {| app_dir := app_dir fs; dir_output_exists := true;
                    out_dirs := out_dirs fs;
                    saved := saved fs
                             ++ map (fun kv => (fst kv ++ ".npy")%string) (pm_variables m)
                             ++ ["energies_ground_states.npy";
                                 "positions_ground_states.npy"]%string;
                    logs := logs fs |})
    else (Err FileNotFoundError, fs).
Proof.
  intro H. pose proof (generate_variables_empty_pool m k H) as Hg.
  split; [exact Hg|].
  apply (run_after_sweep format_field py_float simulate report m fs ([], []) fs).
  rewrite Hg. reflexivity.
Qed.

(** X2: once every point of the sweep has run, [run] fails only when no
    point ran and [dir_output] did not exist ([np.save] raises
    FileNotFoundError); otherwise the ground-state lists always fit
    [shape_variables], and it saves the variables' arrays in declaration
    order, then the energies, then the positions, touching nothing else. *)
Theorem run_finalizes_after_sweep
  (format_field : string -> nat -> float -> result string)
  (py_float : string -> result float)
  (simulate : string -> list string -> list string)
  (report : string -> list row) (m : ParamsManager) (fs : FileSystem)
  (acc : list (option float) * list (option float)) (fs' : FileSystem) :
  sweep format_field py_float simulate report m (generate_variables m) [] [] fs
  = (Ok acc, fs') ->
  (generate_variables m <> [] -> dir_output_exists fs' = true) /\
  run format_field py_float simulate report m fs
  = if dir_output_exists fs'
    then (Ok tt, {| app_dir := app_dir fs'; dir_output_exists := true;
                    out_dirs := out_dirs fs';
                    saved := saved fs
                             ++ map (fun kv => (fst kv ++ ".npy")%string) (pm_variables m)
                             ++ ["energies_ground_states.npy";
                                 "positions_ground_states.npy"]%string;
                    logs := logs fs' |})
    else (Err FileNotFoundError, fs').
Proof.
  intro H. split.
  - apply (sweep_dir_output _ _ _ _ _ _ _ _ H).
  - apply (run_after_sweep _ _ _ _ _ _ _ _ H).
Qed.

(** X3: when [run] completes, the points' identifiers are pairwise
    distinct and none of them was a directory before: [os.makedirs] made one
    new directory per point, in iteration order. *)
Theorem run_ok_distinct_directories
  (format_field : string -> nat -> float -> result string)
  (py_float : string -> result float)
  (simulate : string -> list string -> list string)
  (report : string -> list row) (m : ParamsManager) (fs : FileSystem) :
  fst (run format_field py_float simulate report m fs) = Ok tt ->
  exists names,
    map_result (get_dir_name format_field m) (generate_variables m) = Ok names /\
    NoDup names /\ (forall n, In n names -> ~ In n (out_dirs fs)) /\
    out_dirs (snd (run format_field py_float simulate report m fs)) = out_dirs fs ++ names.
Proof.
  intro H.
  destruct (sweep format_field py_float simulate report m (generate_variables m) [] [] fs)
    as [[acc|e] fs'] eqn:Hs.
  - destruct (sweep_ok _ _ _ _ _ _ _ _ _ _ _ Hs)
      as (names & outs & Hn & _ & _ & Hnd & Hfr & Hd & _).
    rewrite (run_after_sweep _ _ _ _ _ _ _ _ Hs) in H |- *.
    destruct (dir_output_exists fs'); [|discriminate H].
    exists names. simpl. repeat split; assumption.
  - unfold run in H. rewrite (mbind_err _ _ _ _ _ Hs) in H. discriminate.
Qed.

(** X4: after a successful sweep, the two lists [run] reshapes hold, in
    iteration order, the ground-state energy and the ground-state position
    parsed from each point's report [<identifier>_Out.txt]. *)
Theorem sweep_collects_ground_states
  (format_field : string -> nat -> float -> result string)
  (py_float : string -> result float)
  (simulate : string -> list string -> list string)
  (report : string -> list row) (m : ParamsManager) (fs : FileSystem)
  (acc : list (option float) * list (option float)) (fs' : FileSystem) :
  sweep format_field py_float simulate report m (generate_variables m) [] [] fs
  = (Ok acc, fs') ->
  exists names outs,
    map_result (get_dir_name format_field m) (generate_variables m) = Ok names /\
    map_result (fun n => output_data py_float (report n)) names = Ok outs /\
    fst acc = map energy_ground_state outs /\
    snd acc = map position_ground_state outs.
Proof.
  intro H.
  destruct (sweep_ok _ _ _ _ _ _ _ _ _ _ _ H) as (names & outs & Hn & Ho & Hacc & _).
  exists names, outs. subst acc. simpl. repeat split; assumption.
Qed.

(** ** Configurations without variables *)

Lemma fold_dict_set_not_nil {A X} (key : X -> string) (val : X -> A) (l : list X) d :
  d <> [] -> fold_left (fun d x => dict_set d (key x) (val x)) l d <> [].
Proof.
  revert d; induction l as [|x l IH]; intros d Hd; simpl; [exact Hd|].
  apply IH, dict_set_not_nil.
Qed.

Lemma add_log_handler_ok (open_log : string -> result unit) lf fs :
  (forall f, lf = Some f -> open_log f = Ok tt) ->
  exists fs1, add_log_handler open_log lf fs = (Ok tt, fs1) /\
    app_dir fs1 = app_dir fs /\ dir_output_exists fs1 = dir_output_exists fs /\
    out_dirs fs1 = out_dirs fs /\ saved fs1 = saved fs /\
    (forall f, lf = Some f -> In f (logs fs1)).
Proof.
  intro Hl. destruct lf as [f|]; simpl.
  - rewrite (Hl f eq_refl). destruct (in_dec string_dec f (logs fs)) as [Hin|Hin].
    + exists fs. repeat split. intros f' E. injection E as <-. exact Hin.
    + eexists. split; [reflexivity|]. simpl. repeat split.
      intros f' E. injection E as <-. apply in_or_app. right. left. reflexivity.
  - exists fs. repeat split. intros f' E. discriminate E.
Qed.

Lemma init_constants_only constants :
  constants <> [] ->
  exists k v d, init constants []
                = Ok {| pm_constants := (k, v) :: d; pm_variables := [];
                        pm_variable_formats := [] |}.
Proof.
  intro Hc. unfold init.
  destruct constants as [|c cs]; [contradiction|]. simpl.
  pose proof (fold_dict_set_not_nil const_name const_value cs
                [(const_name c, const_value c)] ltac:(discriminate)) as Hne.
  destruct (fold_left (fun (d : dict float) (x : Constant) =>
                        dict_set d (const_name x) (const_value x))
                     cs [(const_name c, const_value c)]) as [|[k v] d] eqn:E;
    [contradiction|].
  exists k, v, d. reflexivity.
Qed.

(** X5: a configuration that declares constants but no variable (the
    default [variables = []]) makes [main] fail with KeyError once the
    solver is set up (its template loads and its log file, if any, opens):
    the single point is the constants mapping, and [_get_dir_name] looks its
    first key up in [variable_formats], which is empty. No input file,
    directory or array is written; only the log file has been opened. *)
Theorem main_constants_only_key_error
  (format_field : string -> nat -> float -> result string)
  (py_float : string -> result float)
  (simulate : string -> list string -> list string)
  (report : string -> list row)
  (load_template : string -> result unit) (open_log : string -> result unit)
  (config : SimulationConfig) (fs : FileSystem) :
  cfg_variables config = [] -> cfg_constants config <> [] ->
  load_template (cfg_file_template config) = Ok tt ->
  (forall f, cfg_log_file config = Some f -> open_log f = Ok tt) ->
  let r := main format_field py_float simulate report load_template open_log config fs in
  fst r = Err KeyError /\
  app_dir (snd r) = app_dir fs /\ dir_output_exists (snd r) = dir_output_exists fs /\
  out_dirs (snd r) = out_dirs fs /\ saved (snd r) = saved fs /\
  (forall f, cfg_log_file config = Some f -> In f (logs (snd r))).
Proof.
  intros Hv Hc Ht Hl.
  destruct (add_log_handler_ok open_log _ fs Hl) as (fs1 & Ha & H1 & H2 & H3 & H4 & H5).
  destruct (init_constants_only _ Hc) as (k & v & d & Hi).
  assert (Hs : solver_init load_template open_log config fs
               = (Ok {| pm_constants := (k, v) :: d; pm_variables := [];
                        pm_variable_formats := [] |}, fs1)).
  { unfold solver_init, mbind, lift, ret. rewrite Hv, Hi, Ht, Ha. reflexivity. }
  cbv zeta. unfold main. rewrite (mbind_ok _ _ _ _ _ Hs). simpl.
  repeat split; assumption.
Qed.

(** ** The report parser *)

Section OutputDataMore.

Variable py_float : string -> result float.

Lemma process_row_field_err acc r k e :
  k < 7 -> to_float py_float (field r k) = Err e ->
  exists e', process_row py_float acc r = Err e'.
Proof.
  intros Hk He. unfold process_row.
  destruct (to_float py_float (field r 0)) eqn:E0; cbn [bind]; [|eauto].
  destruct (to_float py_float (field r 1)) eqn:E1; cbn [bind]; [|eauto].
  destruct (to_float py_float (field r 2)) eqn:E2; cbn [bind]; [|eauto].
  destruct (to_float py_float (field r 3)) eqn:E3; cbn [bind]; [|eauto].
  destruct (to_float py_float (field r 4)) eqn:E4; cbn [bind]; [|eauto].
  destruct (to_float py_float (field r 5)) eqn:E5; cbn [bind]; [|eauto].
  destruct (to_float py_float (field r 6)) eqn:E6; cbn [bind]; [|eauto].
  exfalso. do 7 (destruct k as [|k]; [congruence|]). lia.
Qed.

Lemma parse_rows_row_err i rows acc r :
  In r rows -> (forall acc, exists e, process_row py_float acc r = Err e) ->
  exists e, parse_rows py_float (S i) rows acc = Err e.
Proof.
  revert i acc; induction rows as [|r0 rows IH]; intros i acc Hin Hr; [destruct Hin|].
  rewrite parse_rows_cons.
  destruct Hin as [->|Hin].
  - destruct (Hr acc) as [e He]. rewrite He. eexists. reflexivity.
  - destruct (process_row py_float acc r0) as [acc'|e]; cbn [bind]; [|eauto].
    apply IH; assumption.
Qed.

Lemma output_data_data_rows rows :
  output_data py_float rows = parse_rows py_float 1 (data_rows rows) empty_output.
Proof.
  unfold output_data, data_rows. destruct (filter nonblank rows); reflexivity.
Qed.

End OutputDataMore.

(** X6: a data row with fewer than seven cells makes [OutputData] fail:
    [DictReader] fills the missing cells with [None], and [float(None)]
    raises. *)
Theorem output_data_short_row_fails (py_float : string -> result float)
  (rows : list row) (r : row) :
  In r (data_rows rows) -> List.length r < 7 ->
  exists e, output_data py_float rows = Err e.
Proof.
  intros Hin Hlen. rewrite output_data_data_rows.
  apply (parse_rows_row_err py_float 0 _ _ r Hin).
  intro acc. apply (process_row_field_err py_float acc r (List.length r) TypeError Hlen).
  unfold to_float, field. rewrite (proj2 (nth_error_None r _) (le_n _)). reflexivity.
Qed.

(** X7: [OutputData] tests the eigen-energy cell with [is not None], not
    for emptiness: if the first data row that has a 9th cell has it empty,
    [float("")] raises and the report is not parsed. *)
Theorem output_data_empty_eigen_cell_fails (py_float : string -> result float)
  (rows : list row) (j : nat) (r : row) :
  (forall e, py_float EmptyString <> Ok e) ->
  nth_error (data_rows rows) j = Some r ->
  field r 8 = Some EmptyString ->
  (forall j' r', j' < j -> nth_error (data_rows rows) j' = Some r' -> field r' 8 = None) ->
  exists e, output_data py_float rows = Err e.
Proof.
  intros Hempty Hj Hr Hbefore. rewrite output_data_data_rows.
  assert (Hgen : forall data i acc j,
             energy_ground_state acc = None ->
             nth_error data j = Some r ->
             (forall j' r', j' < j -> nth_error data j' = Some r' -> field r' 8 = None) ->
             exists e, parse_rows py_float (S i) data acc = Err e).
  { clear Hj Hbefore.
    induction data as [|r0 data IH]; intros i acc j' Hacc Hj' Hb;
      [destruct j'; discriminate|].
    rewrite parse_rows_cons.
    destruct (process_row py_float acc r0) as [acc'|e] eqn:Hp; cbn [bind]; [|eauto].
    destruct (process_row_ok py_float acc r0 acc' Hp)
      as (y & ec & ev & ef & fe & ne & nh & _ & _ & _ & _ & _ & _ & _ & _ & _ & _ & _ & _ & _ & _
          & Hg).
    destruct j' as [|j'].
    - injection Hj' as ->. exfalso.
      destruct Hg as [[[Hne|Hn8] _]|(s & e & H8 & _ & Hs & _)].
      + contradiction.
      + congruence.
      + rewrite Hr in H8. injection H8 as <-. exact (Hempty e Hs).
    - apply (IH (S i) acc' j').
      + destruct Hg as [[_ [-> _]]|(s & e & H8 & _)]; [exact Hacc|].
        rewrite (Hb 0 r0 ltac:(lia) eq_refl) in H8. discriminate.
      + exact Hj'.
      + intros j'' r'' Hlt Hr''. apply (Hb (S j'') r''); [lia|exact Hr'']. }
  apply (Hgen _ 0 empty_output j eq_refl Hj Hbefore).
Qed.

(** X8: a report with at most one non-blank line (the skipped row 0)
    parses to seven empty series and no ground state. *)
Theorem output_data_no_data_rows (py_float : string -> result float) (rows : list row) :
  List.length (filter nonblank rows) <= 1 ->
  output_data py_float rows = Ok empty_output.
Proof.
  intro H. unfold output_data.
  destruct (filter nonblank rows) as [|h [|h' t]]; simpl in *; [reflexivity|reflexivity|lia].
Qed.

(** ** Distinct points *)

Lemma NoDup_map_on {A B} (f : A -> B) (l : list A) :
  (forall x y, In x l -> In y l -> f x = f y -> x = y) -> NoDup l -> NoDup (map f l).
Proof.
  induction l as [|x l IH]; intros Hinj Hnd; simpl; [constructor|].
  inversion Hnd as [|? ? Hx Hl]; subst. constructor.
  - intro Hin. apply in_map_iff in Hin as [y [Hy Hin]].
    assert (x = y) as <- by (apply Hinj; [left; reflexivity|right; exact Hin|congruence]).
    contradiction.
  - apply IH; [|exact Hl]. intros a b Ha Hb. apply Hinj; right; assumption.
Qed.

Lemma product_rec_nodup {A} (pools : list (list A)) :
  Forall (@NoDup A) pools -> NoDup (product_rec pools).
Proof.
  induction pools as [|p ps IH]; intro H; simpl; [repeat constructor; intros []|].
  inversion H as [|? ? Hp Hps]; subst. specialize (IH Hps). clear H Hps.
  induction p as [|y p IHp]; simpl; [constructor|].
  inversion Hp as [|? ? Hy Hp']; subst.
  apply NoDup_app.
  - apply NoDup_map_on; [|exact IH]. intros a b _ _ E. injection E as E. exact E.
  - apply IHp, Hp'.
  - intros c Hc Hc'. apply in_map_iff in Hc as [c1 [<- _]].
    apply in_flat_map in Hc' as [y' [Hy' Hc']].
    apply in_map_iff in Hc' as [c2 [E _]]. injection E as -> _. contradiction.
Qed.

Lemma map_snd_combine {A B} (l1 : list A) (l2 : list B) :
  List.length l1 = List.length l2 -> map snd (combine l1 l2) = l2.
Proof.
  revert l2; induction l1 as [|x l1 IH]; intros [|y l2] H; simpl in *;
    try discriminate; [reflexivity|].
  f_equal. apply IH. congruence.
Qed.

(** X9: when every variable's value list has no repeated value, the points
    of the sweep are pairwise distinct. *)
Theorem generate_variables_nodup (constants : list Constant)
  (variables : list Variable_) (m : ParamsManager) :
  init constants variables = Ok m ->
  Forall (fun kv => NoDup (snd kv)) (pm_variables m) ->
  NoDup (generate_variables m).
Proof.
  intros Hinit Hvals.
  pose proof (init_inv _ _ _ Hinit) as [Hv _].
  pose proof (init_variables_nodup [] _ _ (NoDup_nil _) Hv) as Hnd.
  unfold generate_variables.
  destruct (pm_variables m) as [|kv vars] eqn:E; [repeat constructor; intros []|].
  rewrite <- E in *. rewrite itertools_product_rec.
  assert (Hlen : forall c, In c (product_rec (map snd (pm_variables m))) ->
                           List.length (map fst (pm_variables m)) = List.length c).
  { intros c Hc. rewrite (product_rec_in_length _ _ Hc), !length_map. reflexivity. }
  apply NoDup_map_on.
  - intros c1 c2 H1 H2 Hc.
    rewrite !dict_of_pairs_nodup in Hc
      by (rewrite map_fst_combine; [exact Hnd|symmetry; apply Hlen; assumption]).
    rewrite <- (map_snd_combine _ _ (Hlen _ H1)), <- (map_snd_combine _ _ (Hlen _ H2)).
    congruence.
  - apply product_rec_nodup. apply Forall_map.
    eapply Forall_impl; [|exact Hvals]. intros a Ha. exact Ha.
Qed.

(** ** Ranges that run backwards *)

Lemma negative_float_shape (x : float) :
  (x <? 0)%float = true ->
  (exists m e, Prim2SF x = S754_finite true m e) \/ Prim2SF x = S754_infinity true.
Proof.
  rewrite FloatAxioms.ltb_spec.
  change (Prim2SF 0%float) with (S754_zero false).
  unfold SFltb, SFcompare.
  destruct (Prim2SF x) as [s|[]| |[] m e]; simpl; try discriminate.
  - right. reflexivity.
  - left. exists m, e. reflexivity.
Qed.

Lemma negative_float_neq_zero (x : float) :
  (x <? 0)%float = true -> (x =? 0)%float = false.
Proof.
  intro H. rewrite FloatAxioms.eqb_spec.
  change (Prim2SF 0%float) with (S754_zero false).
  destruct (negative_float_shape x H) as [(m & e & ->)| ->]; reflexivity.
Qed.

Lemma div_negative_shape (x y : float) :
  (x <? 0)%float = true -> (0 <? y)%float = true ->
  Prim2SF (x / y) = S754_zero true \/
  (exists m e, Prim2SF (x / y) = S754_finite true m e) \/
  Prim2SF (x / y) = S754_infinity true \/
  Prim2SF (x / y) = S754_nan.
Proof.
  intros Hx Hy. rewrite FloatAxioms.div_spec. unfold SF64div, SFdiv.
  destruct (negative_float_shape x Hx) as [(mx & ex & ->)| ->];
    destruct (positive_float_shape y Hy) as [(my & ey & ->)| ->]; simpl.
  - destruct (SFdiv_core_binary prec emax (Z.pos mx) ex (Z.pos my) ey) as [[mz ez] lz].
    unfold binary_round_aux.
    destruct (shr_fexp prec emax mz ez lz) as [mrs' e'].
    destruct (shr_fexp prec emax _ e' loc_Exact) as [mrs'' e''].
    destruct (shr_m mrs'') as [|p|p]; [left; reflexivity| |right; right; right; reflexivity].
    destruct (e'' <=? emax - prec)%Z; [right; left; exists p, e''; reflexivity|].
    right; right; left; reflexivity.
  - left. reflexivity.
  - right; right; left. reflexivity.
  - right; right; right. reflexivity.
Qed.

Lemma negative_zero_sign (q : float) :
  Prim2SF q = S754_zero true -> PrimFloat.get_sign q = true.
Proof.
  intro Hq. unfold PrimFloat.get_sign, PrimFloat.is_zero.
  rewrite FloatAxioms.eqb_spec, Hq.
  change (Prim2SF zero) with (S754_zero false). cbn -[PrimFloat.div PrimFloat.ltb].
  rewrite FloatAxioms.ltb_spec, FloatAxioms.div_spec, Hq. reflexivity.
Qed.

Lemma spec_ceil_negative m e c :
  spec_ceil (S754_finite true m e) = Some c -> (c <= 0)%Z.
Proof.
  unfold spec_ceil. destruct (0 <=? e)%Z eqn:He; intro H; injection H as <-;
    cbv beta iota zeta.
  - apply Z.leb_le in He.
    assert (0 <= 2 ^ e)%Z by (apply Z.pow_nonneg; lia).
    change (- (Z.pos m * 2 ^ e) <= 0)%Z. remember (2 ^ e)%Z as t. nia.
  - assert (Hd : (0 < 2 ^ (- e))%Z) by (apply Z.pow_pos_nonneg; lia).
    change (- (Z.pos m / 2 ^ (- e)) <= 0)%Z.
    pose proof (Z.div_pos (Z.pos m) (2 ^ (- e)) ltac:(lia) Hd). lia.
Qed.

Lemma calc_length_negative (start stop step : float) :
  (0 <? step)%float = true -> (stop - start <? 0)%float = true ->
  (exists e, calc_length start stop step = Err e) \/
  exists len, calc_length start stop step = Ok len /\ (len <= 0)%Z.
Proof.
  intros Hstep Hdiff. unfold calc_length.
  rewrite (positive_float_neq_zero _ Hstep), (negative_float_neq_zero _ Hdiff).
  cbv zeta.
  destruct (div_negative_shape _ _ Hdiff Hstep)
    as [Hq|[(mq & eq & Hq)|[Hq|Hq]]].
  - right. rewrite FloatAxioms.eqb_spec, Hq. change (Prim2SF 0%float) with (S754_zero false).
    cbn [SFeqb SFcompare andb negb]. rewrite (negative_zero_sign _ Hq).
    eexists. split; [reflexivity|lia].
  - rewrite FloatAxioms.eqb_spec, Hq. change (Prim2SF 0%float) with (S754_zero false).
    cbn [SFeqb SFcompare andb negb]. unfold arange_safe_ceil_to_intp.
    rewrite (finite_not_nan _ _ _ _ Hq), Hq.
    destruct (spec_ceil (S754_finite true mq eq)) as [c|] eqn:Hc;
      [|left; eexists; reflexivity].
    destruct (andb _ _); [|left; eexists; reflexivity].
    right. exists (npy_intp_cast c). split; [reflexivity|].
    pose proof (spec_ceil_negative _ _ _ Hc). unfold npy_intp_cast.
    destruct (c =? 2 ^ 63)%Z; lia.
  - left. rewrite FloatAxioms.eqb_spec, Hq. change (Prim2SF 0%float) with (S754_zero false).
    cbn [SFeqb SFcompare andb negb]. unfold arange_safe_ceil_to_intp, PrimFloat.is_nan.
    rewrite FloatAxioms.eqb_spec, Hq. simpl. eexists. reflexivity.
  - left. rewrite FloatAxioms.eqb_spec, Hq. cbn [SFeqb SFcompare andb negb].
    unfold arange_safe_ceil_to_intp, PrimFloat.is_nan.
    rewrite FloatAxioms.eqb_spec, Hq. simpl. eexists. reflexivity.
Qed.

Lemma arange_backward (start stop step : float) l :
  (0 <? step)%float = true -> (stop - start <? 0)%float = true ->
  arange start stop step = Ok l -> l = [].
Proof.
  intros Hstep Hdiff Ha.
  destruct (calc_length_negative _ _ _ Hstep Hdiff) as [[e He]|(len & Hl & Hn)].
  - exfalso. exact (arange_calc_err _ _ _ _ _ He Ha).
  - destruct (arange_calc_ok _ _ _ _ _ Hl Ha) as [[_ ->]|(Hp & _)]; [reflexivity|lia].
Qed.

Lemma init_variables_app d pre post :
  init_variables d (pre ++ post) = (d' <- init_variables d pre ;; init_variables d' post).
Proof.
  revert d; induction pre as [|v pre IH]; intro d; simpl; [reflexivity|].
  destruct (var_value v) as [l|a]; [apply IH|].
  destruct (arange (start a) (end_ a) (step a)); simpl; [apply IH|reflexivity].
Qed.

Lemma init_variables_untouched d post d' k :
  init_variables d post = Ok d' -> ~ In k (map var_name post) ->
  dict_get d' k = dict_get d k.
Proof.
  revert d; induction post as [|v post IH]; intros d H Hk; simpl in H.
  - injection H as <-. reflexivity.
  - assert (Hk1 : String.eqb k (var_name v) = false)
      by (apply String.eqb_neq; intro E; apply Hk; left; congruence).
    assert (Hk2 : ~ In k (map var_name post)) by (intro Hin; apply Hk; right; exact Hin).
    destruct (var_value v) as [l|a].
    + rewrite (IH _ H Hk2), dict_get_set, Hk1. reflexivity.
    + destruct (arange (start a) (end_ a) (step a)) as [l|e]; simpl in H; [|discriminate].
      rewrite (IH _ H Hk2), dict_get_set, Hk1. reflexivity.
Qed.

Lemma dict_get_some_in {A} (d : dict A) k v : dict_get d k = Some v -> In (k, v) d.
Proof.
  induction d as [|[k1 v1] d IH]; simpl; [discriminate|].
  destruct (String.eqb k k1) eqn:E.
  - apply String.eqb_eq in E as ->. intro H. injection H as ->. left. reflexivity.
  - intro H. right. apply IH, H.
Qed.

(** X10: [np.arange] with a positive step and [end] below [start] yields no
    value, so a variable whose last declaration is such a range gets an
    empty value list, and the sweep has no point at all. *)
Theorem init_reversed_range_empty (constants : list Constant)
  (pre : list Variable_) (v : Variable_) (post : list Variable_) (a : Array)
  (m : ParamsManager) :
  var_value v = VArray a ->
  (0 <? step a)%float = true ->
  (end_ a - start a <? 0)%float = true ->
  ~ In (var_name v) (map var_name post) ->
  init constants (pre ++ v :: post) = Ok m ->
  In (var_name v, []) (pm_variables m) /\ generate_variables m = [].
Proof.
  intros Hv Hs Hd Hlast Hinit.
  pose proof (init_inv _ _ _ Hinit) as [Hvars _].
  rewrite init_variables_app in Hvars.
  destruct (init_variables [] pre) as [d|e]; simpl in Hvars; [|discriminate].
  rewrite Hv in Hvars.
  destruct (arange (start a) (end_ a) (step a)) as [l|e] eqn:Ha; simpl in Hvars;
    [|discriminate].
  rewrite (arange_backward _ _ _ _ Hs Hd Ha) in Hvars.
  pose proof (init_variables_untouched _ _ _ (var_name v) Hvars Hlast) as Hg.
  rewrite dict_get_set, String.eqb_refl in Hg.
  pose proof (dict_get_some_in _ _ _ Hg) as Hin.
  split; [exact Hin|]. apply (generate_variables_empty_pool m (var_name v) Hin).
Qed.

(** ** Instances of the further properties on the sample inputs *)

Lemma run_empty_variable_simulates_nothing_witness :
  init [T_300] [V_brace; E_empty] = Ok empty_pool_manager /\
  generate_variables empty_pool_manager = [] /\
  run fixed_format_field int_float echo_simulator sample_reports empty_pool_manager fresh_fs
  = if dir_output_exists fresh_fs
    then (Ok tt, {| app_dir := app_dir fresh_fs; dir_output_exists := true;
                    out_dirs := out_dirs fresh_fs;
                    saved := saved fresh_fs
                             ++ map (fun kv => (fst kv ++ ".npy")%string)
                                    (pm_variables empty_pool_manager)
                             ++ ["energies_ground_states.npy";
                                 "positions_ground_states.npy"]%string;
                    logs := logs fresh_fs |})
    else (Err FileNotFoundError, fresh_fs).
Proof.
  split; [vm_compute; reflexivity|].
  apply (run_empty_variable_simulates_nothing fixed_format_field int_float echo_simulator
           sample_reports empty_pool_manager "E"%string fresh_fs).
  simpl. right. left. reflexivity.
Defined.

Lemma run_finalizes_after_sweep_witness :
  init [T_300] [V_brace] = Ok brace_manager /\
  sweep fixed_format_field int_float echo_simulator sample_reports brace_manager
        (generate_variables brace_manager) [] [] fresh_fs
  = (Ok brace_sweep_acc, brace_sweep_fs) /\
  (generate_variables brace_manager <> [] -> dir_output_exists brace_sweep_fs = true) /\
  run fixed_format_field int_float echo_simulator sample_reports brace_manager fresh_fs
  = if dir_output_exists brace_sweep_fs
    then (Ok tt, {| app_dir := app_dir brace_sweep_fs; dir_output_exists := true;
                    out_dirs := out_dirs brace_sweep_fs;
                    saved := saved fresh_fs
                             ++ map (fun kv => (fst kv ++ ".npy")%string)
                                    (pm_variables brace_manager)
                             ++ ["energies_ground_states.npy";
                                 "positions_ground_states.npy"]%string;
                    logs := logs brace_sweep_fs |})
    else (Err FileNotFoundError, brace_sweep_fs).
Proof.
  assert (Hs : sweep fixed_format_field int_float echo_simulator sample_reports brace_manager
                 (generate_variables brace_manager) [] [] fresh_fs
               = (Ok brace_sweep_acc, brace_sweep_fs)) by (vm_compute; reflexivity).
  split; [vm_compute; reflexivity|]. split; [exact Hs|].
  apply (run_finalizes_after_sweep fixed_format_field int_float echo_simulator
           sample_reports brace_manager fresh_fs brace_sweep_acc brace_sweep_fs Hs).
Defined.

Lemma run_ok_distinct_directories_witness :
  init [T_300] [V_brace] = Ok brace_manager /\
  exists names,
    map_result (get_dir_name fixed_format_field brace_manager)
               (generate_variables brace_manager) = Ok names /\
    NoDup names /\ (forall n, In n names -> ~ In n (out_dirs fresh_fs)) /\
    out_dirs (snd (run fixed_format_field int_float echo_simulator sample_reports
                       brace_manager fresh_fs))
    = out_dirs fresh_fs ++ names.
Proof.
  split; [vm_compute; reflexivity|].
  apply (run_ok_distinct_directories fixed_format_field int_float echo_simulator
           sample_reports brace_manager fresh_fs).
  vm_compute. reflexivity.
Defined.

Lemma sweep_collects_ground_states_witness :
  init [T_300] [V_brace] = Ok brace_manager /\
  sweep fixed_format_field int_float echo_simulator sample_reports brace_manager
        (generate_variables brace_manager) [] [] fresh_fs
  = (Ok brace_sweep_acc, brace_sweep_fs) /\
  exists names outs,
    map_result (get_dir_name fixed_format_field brace_manager)
               (generate_variables brace_manager) = Ok names /\
    map_result (fun n => output_data int_float (sample_reports n)) names = Ok outs /\
    fst brace_sweep_acc = map energy_ground_state outs /\
    snd brace_sweep_acc = map position_ground_state outs.
Proof.
  assert (Hs : sweep fixed_format_field int_float echo_simulator sample_reports brace_manager
                 (generate_variables brace_manager) [] [] fresh_fs
               = (Ok brace_sweep_acc, brace_sweep_fs)) by (vm_compute; reflexivity).
  split; [vm_compute; reflexivity|]. split; [exact Hs|].
  apply (sweep_collects_ground_states fixed_format_field int_float echo_simulator
           sample_reports brace_manager fresh_fs brace_sweep_acc brace_sweep_fs Hs).
Defined.

Lemma main_constants_only_key_error_witness :
  let r := main fixed_format_field int_float silent_simulator empty_report
                (fun _ => Ok tt) (fun _ => Ok tt) constants_only_config fresh_fs in
  fst r = Err KeyError /\
  app_dir (snd r) = app_dir fresh_fs /\
  dir_output_exists (snd r) = dir_output_exists fresh_fs /\
  out_dirs (snd r) = out_dirs fresh_fs /\ saved (snd r) = saved fresh_fs /\
  (forall f, cfg_log_file constants_only_config = Some f -> In f (logs (snd r))).
Proof.
  apply (main_constants_only_key_error fixed_format_field int_float silent_simulator
           empty_report (fun _ => Ok tt) (fun _ => Ok tt) constants_only_config fresh_fs).
  - reflexivity.
  - discriminate.
  - reflexivity.
  - intros f _. reflexivity.
Defined.

Lemma output_data_short_row_fails_witness :
  exists e, output_data int_float short_report = Err e.
Proof.
  apply (output_data_short_row_fails int_float short_report ["10"; "1"; "2"]%string).
  - simpl. left. reflexivity.
  - simpl. lia.
Defined.

Lemma output_data_empty_eigen_cell_fails_witness :
  exists e, output_data int_float empty_eigen_report = Err e.
Proof.
  apply (output_data_empty_eigen_cell_fails int_float empty_eigen_report 1
           ["20"; "1"; "2"; "3"; "4"; "5"; "6"; "7"; ""]%string).
  - intros e H. discriminate H.
  - reflexivity.
  - reflexivity.
  - intros j' r' Hlt Hr'. destruct j' as [|j']; [|lia].
    simpl in Hr'. injection Hr' as <-. reflexivity.
Defined.

Lemma output_data_no_data_rows_witness :
  output_data int_float header_only_report = Ok empty_output.
Proof. apply output_data_no_data_rows. simpl. lia. Defined.

Lemma generate_variables_nodup_witness :
  init [T_300] [V_brace; W_brace] = Ok two_variable_manager /\
  NoDup (generate_variables two_variable_manager).
Proof.
  assert (Hi : init [T_300] [V_brace; W_brace] = Ok two_variable_manager)
    by (vm_compute; reflexivity).
  split; [exact Hi|].
  apply (generate_variables_nodup [T_300] [V_brace; W_brace] two_variable_manager Hi).
  unfold two_variable_manager. simpl.
  repeat apply Forall_cons; try apply Forall_nil; simpl;
    repeat (apply NoDup_cons;
            [simpl; intros H;
             repeat (destruct H as [H|H];
                     [apply (f_equal Prim2SF) in H; vm_compute in H; discriminate H|]);
             exact H|]);
    apply NoDup_nil.
Defined.

Lemma init_reversed_range_empty_witness :
  init [] [V_backward] = Ok backward_manager /\
  In (var_name V_backward, []) (pm_variables backward_manager) /\
  generate_variables backward_manager = [].
Proof.
  assert (Hi : init [] ([] ++ [V_backward] ++ []) = Ok backward_manager)
    by (vm_compute; reflexivity).
  split; [exact Hi|].
  apply (init_reversed_range_empty [] [] V_backward []
           {| start := 1%float; end_ := 0%float; step := 0.25%float |} backward_manager).
  - reflexivity.
  - vm_compute. reflexivity.
  - vm_compute. reflexivity.
  - simpl. tauto.
  - exact Hi.
Defined.
